(** * uhub: the user manager (src/usermanager.c)

    A shallow embedding of the hub's session registry, its statistics
    sampler and its two broadcast helpers, with the properties the
    specification states about them.

    The C file works on one [struct hub_info], on [struct user] objects
    reached through pointers, and on a handful of collaborators (the linked
    list, the routing layer, the message builder, the network counters, the
    event loop).  Here a [world] holds the user objects by address, the hub,
    the network counters and the trace of calls made to the collaborators;
    every C function becomes a function on worlds. *)

From Stdlib Require Import ZArith String List Sorted Bool Lia.
From Stdlib Require Finite.
Import ListNotations.
Local Open Scope Z_scope.

(* ================================================================== *)
(** * What uhub.h declares                                             *)
(* ================================================================== *)

(** The header is not part of the translated file, so the integer widths,
    the macros and the enumerators it declares are fields of a [Platform].
    [size_t] is the type of [count] and [count_peak] (they are printed with
    [%zu]); [sid_t] is the type of [free_sid]; the two share totals have a
    width of their own.  All three are taken as unsigned. *)
Class Platform := {
  size_bits : N;
  sid_bits : N;
  share_bits : N;
  TIMEOUT_STATS : Z;
  flag_user_list : Z;
  ADC_CMD_IQUI : Z;
  ADC_QUI_FLAG_DISCONNECT : string;
  sid_to_string : Z -> string
}.

(** Arithmetic of an unsigned integer of [bits] bits. *)
Definition wrap (bits : N) (x : Z) : Z := x mod 2 ^ Z.of_N bits.

(** Modelled from the spec: the macro [MAX] of uhub.h, the larger of its
    two arguments ("raises count_peak to max(count_peak, count)"). *)
Definition MAX (a b : Z) : Z := if a >? b then a else b.

(* ================================================================== *)
(** * Data model                                                       *)
(* ================================================================== *)

(** The address of a [struct user]; a pointer that may be NULL is an
    [option ptr]. *)
Definition ptr := positive.

(** Only [cred_none] is named by this file; the header's other trust
    levels are kept apart by a number. *)
Inductive user_credentials :=
| cred_none
| cred_level (n : nat).

Inductive user_quit_reason :=
| quit_normal
| quit_kicked
| quit_banned
| quit_other (n : nat).

(** [==] on quit reasons. *)
Definition quit_reason_eqb (a b : user_quit_reason) : bool :=
  match a, b with
  | quit_normal, quit_normal => true
  | quit_kicked, quit_kicked => true
  | quit_banned, quit_banned => true
  | quit_other n, quit_other m => Nat.eqb n m
  | _, _ => false
  end.

(** A protocol message: its command and its arguments, in order. *)
Record adc_message := mk_adc_message {
  cmd : Z;
  args : list string
}.

(** The fields of [struct user] that this file reads or writes.
    [logged_in] stands for what [user_is_logged_in] reads. *)
Record user := mk_user {
  id_sid : Z;
  id_cid : string;
  id_nick : string;
  credentials : user_credentials;
  limits_shared_size : Z;
  limits_shared_files : Z;
  quit_reason : user_quit_reason;
  send_queue_size : Z;
  flags : Z;
  logged_in : bool;
  info : adc_message
}.

(** [struct user_manager]; [users_list] is its [list] field, the linked
    list of user pointers in insertion order. *)
Record user_manager := mk_user_manager {
  users_list : list ptr;
  count : Z;
  count_peak : Z;
  free_sid : Z;
  shared_size : Z;
  shared_files : Z
}.

(** [hub->stats]. *)
Record hub_stats := mk_hub_stats {
  net_tx : Z;
  net_rx : Z;
  net_tx_peak : Z;
  net_rx_peak : Z;
  net_tx_total : Z;
  net_rx_total : Z
}.

(** [struct net_statistics], as far as it is read here. *)
Record net_statistics := mk_net_statistics {
  tx : Z;
  rx : Z
}.

Record hub_info := mk_hub_info {
  users : user_manager;
  stats : hub_stats
}.

(** Calls to the collaborators, as they appear in the trace. *)
Inductive event :=
| ev_evtimer_set
| ev_evtimer_add (seconds : Z)
| ev_event_del
| ev_user_destroy (u : ptr) (seen : user_credentials)
| ev_list_destroy
| ev_hub_free
| ev_route_to_user (target : ptr) (msg : adc_message) (ret : Z)
| ev_route_to_all (msg : adc_message)
| ev_adc_msg_free (msg : adc_message)
| ev_net_stats_reset.

(** Every user points back to the one hub ([user->hub]), so the hub is a
    field of the world and not of the user. *)
Record world := mk_world {
  mem : ptr -> user;
  hub : hub_info;
  net_intermediate : net_statistics;
  net_total : net_statistics;
  trace : list event
}.

(** The routing layer decides the outcome of a delivery: from the world as
    it stands at the call (the user objects with their flags and queues,
    the hub, the calls made so far), the target and the payload it gives
    the value [route_to_user] returns and the target's send queue size
    afterwards. *)
Class Routing := {
  route_outcome : world -> ptr -> adc_message -> Z * Z
}.

(** ** Field updates *)

Definition set_users_list (um : user_manager) (l : list ptr) : user_manager :=
  mk_user_manager l (count um) (count_peak um) (free_sid um)
    (shared_size um) (shared_files um).

Definition set_count (um : user_manager) (n : Z) : user_manager :=
  mk_user_manager (users_list um) n (count_peak um) (free_sid um)
    (shared_size um) (shared_files um).

Definition set_count_peak (um : user_manager) (n : Z) : user_manager :=
  mk_user_manager (users_list um) (count um) n (free_sid um)
    (shared_size um) (shared_files um).

Definition set_free_sid (um : user_manager) (n : Z) : user_manager :=
  mk_user_manager (users_list um) (count um) (count_peak um) n
    (shared_size um) (shared_files um).

Definition set_shared_size (um : user_manager) (n : Z) : user_manager :=
  mk_user_manager (users_list um) (count um) (count_peak um) (free_sid um)
    n (shared_files um).

Definition set_shared_files (um : user_manager) (n : Z) : user_manager :=
  mk_user_manager (users_list um) (count um) (count_peak um) (free_sid um)
    (shared_size um) n.

Definition set_net_tx (s : hub_stats) (n : Z) : hub_stats :=
  mk_hub_stats n (net_rx s) (net_tx_peak s) (net_rx_peak s)
    (net_tx_total s) (net_rx_total s).

Definition set_net_rx (s : hub_stats) (n : Z) : hub_stats :=
  mk_hub_stats (net_tx s) n (net_tx_peak s) (net_rx_peak s)
    (net_tx_total s) (net_rx_total s).

Definition set_net_tx_peak (s : hub_stats) (n : Z) : hub_stats :=
  mk_hub_stats (net_tx s) (net_rx s) n (net_rx_peak s)
    (net_tx_total s) (net_rx_total s).

Definition set_net_tx_total (s : hub_stats) (n : Z) : hub_stats :=
  mk_hub_stats (net_tx s) (net_rx s) (net_tx_peak s) (net_rx_peak s)
    n (net_rx_total s).

Definition set_net_rx_total (s : hub_stats) (n : Z) : hub_stats :=
  mk_hub_stats (net_tx s) (net_rx s) (net_tx_peak s) (net_rx_peak s)
    (net_tx_total s) n.

Definition set_credentials (u : user) (c : user_credentials) : user :=
  mk_user (id_sid u) (id_cid u) (id_nick u) c (limits_shared_size u)
    (limits_shared_files u) (quit_reason u) (send_queue_size u) (flags u)
    (logged_in u) (info u).

Definition set_send_queue_size (u : user) (n : Z) : user :=
  mk_user (id_sid u) (id_cid u) (id_nick u) (credentials u)
    (limits_shared_size u) (limits_shared_files u) (quit_reason u) n
    (flags u) (logged_in u) (info u).

Definition set_flags (u : user) (f : Z) : user :=
  mk_user (id_sid u) (id_cid u) (id_nick u) (credentials u)
    (limits_shared_size u) (limits_shared_files u) (quit_reason u)
    (send_queue_size u) f (logged_in u) (info u).

Definition with_users (w : world) (um : user_manager) : world :=
  mk_world (mem w) (mk_hub_info um (stats (hub w)))
    (net_intermediate w) (net_total w) (trace w).

Definition with_stats (w : world) (s : hub_stats) : world :=
  mk_world (mem w) (mk_hub_info (users (hub w)) s)
    (net_intermediate w) (net_total w) (trace w).

(** A store through a user pointer: [*p = u]. *)
Definition store (w : world) (p : ptr) (u : user) : world :=
  mk_world (fun q => if Pos.eqb q p then u else mem w q) (hub w)
    (net_intermediate w) (net_total w) (trace w).

(** A call to a collaborator leaves its event at the end of the trace. *)
Definition emit (e : event) (w : world) : world :=
  mk_world (mem w) (hub w) (net_intermediate w) (net_total w)
    (trace w ++ [e]).

(* ================================================================== *)
(** * The collaborators                                                *)
(* ================================================================== *)

(** Modelled from the spec: [list_append] of the linked list, which is not
    part of the translated file ("appends session to the membership
    collection"; the collection is insertion-ordered). *)
Definition list_append (l : list ptr) (p : ptr) : list ptr := l ++ [p].

(** Modelled from the spec: [list_remove] of the linked list ("removes
    session from the membership collection (no-op if absent ...)"): the
    first node that holds the pointer is unlinked. *)
Fixpoint list_remove (l : list ptr) (p : ptr) : list ptr :=
  match l with
  | [] => []
  | q :: rest => if Pos.eqb q p then rest else q :: list_remove rest p
  end.

(** Modelled from the spec: [user_is_logged_in] ("every live session ...
    that is in a logged in state"). *)
Definition user_is_logged_in (u : user) : bool := logged_in u.

(** Modelled from the spec: [user_flag_set] marks a session with a
    transient flag, a bit of its [flags] word. *)
Definition user_flag_set (p : ptr) (flag : Z) (w : world) : world :=
  store w p (set_flags (mem w p) (Z.lor (flags (mem w p)) flag)).

(** Modelled from the spec: [user_flag_unset] clears that bit. *)
Definition user_flag_unset (p : ptr) (flag : Z) (w : world) : world :=
  store w p (set_flags (mem w p) (Z.land (flags (mem w p)) (Z.lnot flag))).

(** Modelled from the spec: the session destruction primitive.  The event
    keeps the credentials the session has when it is handed over. *)
Definition user_destroy (p : ptr) (w : world) : world :=
  emit (ev_user_destroy p (credentials (mem w p))) w.

(** Modelled from the spec: [route_to_user(target, payload) -> success].
    The routing layer's answer fixes the returned value and the target's
    outstanding queue size; nothing else of the world changes. *)
Definition route_to_user `{Routing} (target : ptr) (msg : adc_message)
    (w : world) : Z * world :=
  let '(ret, queued) := route_outcome w target msg in
  (ret, emit (ev_route_to_user target msg ret)
          (store w target (set_send_queue_size (mem w target) queued))).

(** Modelled from the spec: [route_to_all(hub, payload)], one broadcast to
    all registered sessions. *)
Definition route_to_all (msg : adc_message) (w : world) : world :=
  emit (ev_route_to_all msg) w.

(** Modelled from the spec: the message builder's construct, a message of
    the given command with no argument yet. *)
Definition adc_msg_construct (fourcc : Z) (size : Z) : adc_message :=
  mk_adc_message fourcc [].

(** Modelled from the spec: the message builder's append-argument. *)
Definition adc_msg_add_argument (m : adc_message) (s : string) : adc_message :=
  mk_adc_message (cmd m) (args m ++ [s]).

(** Modelled from the spec: the message builder's release. *)
Definition adc_msg_free (m : adc_message) (w : world) : world :=
  emit (ev_adc_msg_free m) w.

(** Modelled from the spec: the network counters' read,
    [get_counters() -> (interval_counters, cumulative_counters)]. *)
Definition net_stats_get (w : world) : net_statistics * net_statistics :=
  (net_intermediate w, net_total w).

(** Modelled from the spec: [reset_counters()], which puts the counters of
    the interval back to zero; the cumulative ones run since process
    start. *)
Definition net_stats_reset (w : world) : world :=
  emit ev_net_stats_reset
    (mk_world (mem w) (hub w) (mk_net_statistics 0 0) (net_total w) (trace w)).

(** Modelled from the spec: the periodic timer primitive,
    [arm(interval, callback)] in its two calls, and [cancel()]. *)
Definition evtimer_set (w : world) : world := emit ev_evtimer_set w.

Definition evtimer_add (seconds : Z) (w : world) : world :=
  emit (ev_evtimer_add seconds) w.

Definition event_del (w : world) : world := emit ev_event_del w.

(** Modelled from the spec: [list_clear] hands every element to the
    callback, first to last, and leaves the list empty. *)
Definition list_clear (l : list ptr)
    (free_handle : option ptr -> world -> world) (w : world) : world :=
  let w := fold_left (fun w p => free_handle (Some p) w) l w in
  with_users w (set_users_list (users (hub w)) []).

(** Modelled from the spec: [list_destroy] releases the membership
    collection. *)
Definition list_destroy (w : world) : world := emit ev_list_destroy w.

(** Modelled from the spec: [hub_free] releases the registry. *)
Definition hub_free (w : world) : world := emit ev_hub_free w.

(* ================================================================== *)
(** * usermanager.c                                                    *)
(* ================================================================== *)

Section UserManager.
Context {platform : Platform} {routing : Routing}.

(** [clear_user_list_callback], lines 26-39: the callback handed to
    [list_clear] by [user_manager_shutdown]. *)
Definition clear_user_list_callback (p : option ptr) (w : world) : world :=
  match p with
  | Some u =>
      let w := store w u (set_credentials (mem w u) cred_none) in
      user_destroy u w
  | None => w
  end.

(** [user_manager_update_stats], lines 42-57.  [/] is C's division, which
    truncates. *)
Definition user_manager_update_stats (w : world) : world :=
  let factor := TIMEOUT_STATS in
  let '(intermediate, total) := net_stats_get w in
  let s := stats (hub w) in
  let s := set_net_tx s (Z.quot (tx intermediate) factor) in
  let s := set_net_rx s (Z.quot (rx intermediate) factor) in
  let s := set_net_tx_peak s (MAX (net_tx s) (net_tx_peak s)) in
  let s := set_net_tx_peak s (MAX (net_rx s) (net_rx_peak s)) in
  let s := set_net_tx_total s (tx total) in
  let s := set_net_rx_total s (rx total) in
  net_stats_reset (with_stats w s).

(** [timer_statistics], lines 71-78: one tick of the self-rescheduling
    timer. *)
Definition timer_statistics (w : world) : world :=
  let w := user_manager_update_stats w in
  let w := evtimer_set w in
  evtimer_add TIMEOUT_STATS w.

(** The registry [hub_malloc_zero] and the following two assignments
    leave behind. *)
Definition fresh_user_manager : user_manager :=
  mk_user_manager [] 0 0 1 0 0.

(** [user_manager_init], lines 81-102.  [list_created] tells whether
    [list_create] gave a list; without one [hub->users] is not set. *)
Definition user_manager_init (list_created : bool) (w : world) : Z * world :=
  if negb list_created then (-1, list_destroy w)
  else
    let w := with_users w fresh_user_manager in
    let w := evtimer_set w in
    let w := evtimer_add TIMEOUT_STATS w in
    (0, w).

(** [user_manager_shutdown], lines 105-113. *)
Definition user_manager_shutdown (w : world) : world :=
  let users := users (hub w) in
  let w := event_del w in
  let w := list_clear (users_list users) clear_user_list_callback w in
  let w := list_destroy w in
  hub_free w.

(** [user_manager_add], lines 116-124. *)
Definition user_manager_add (user : ptr) (w : world) : world :=
  let u := mem w user in
  let um := users (hub w) in
  let um := set_users_list um (list_append (users_list um) user) in
  let um := set_count um (wrap size_bits (count um + 1)) in
  let um := set_count_peak um (MAX (count um) (count_peak um)) in
  let um := set_shared_size um
              (wrap share_bits (shared_size um + limits_shared_size u)) in
  let um := set_shared_files um
              (wrap share_bits (shared_files um + limits_shared_files u)) in
  with_users w um.

(** [user_manager_remove], lines 126-133. *)
Definition user_manager_remove (user : ptr) (w : world) : world :=
  let u := mem w user in
  let um := users (hub w) in
  let um := set_users_list um (list_remove (users_list um) user) in
  let um := set_count um (wrap size_bits (count um - 1)) in
  let um := set_shared_size um
              (wrap share_bits (shared_size um - limits_shared_size u)) in
  let um := set_shared_files um
              (wrap share_bits (shared_files um - limits_shared_files u)) in
  with_users w um.

(** The loop shared by the three lookups: [list_get_first], then
    [list_get_next] until a user passes the test or the list ends. *)
Fixpoint first_user (test : user -> bool) (m : ptr -> user) (l : list ptr)
    : option ptr :=
  match l with
  | [] => None
  | user :: rest => if test (m user) then Some user else first_user test m rest
  end.

(** [get_user_by_sid], [get_user_by_cid] and [get_user_by_nick], lines
    136-172; [strcmp(a, b) == 0] is equality of strings. *)
Definition get_user_by_sid (w : world) (sid : Z) : option ptr :=
  first_user (fun u => id_sid u =? sid) (mem w) (users_list (users (hub w))).

Definition get_user_by_cid (w : world) (cid : string) : option ptr :=
  first_user (fun u => String.eqb (id_cid u) cid) (mem w)
    (users_list (users (hub w))).

Definition get_user_by_nick (w : world) (nick : string) : option ptr :=
  first_user (fun u => String.eqb (id_nick u) nick) (mem w)
    (users_list (users (hub w))).

(** The [while] loop of [send_user_list] over the users still to visit;
    [ret] is the variable of that name. *)
Fixpoint send_user_list_loop (target : ptr) (l : list ptr) (ret : Z)
    (w : world) : Z * world :=
  match l with
  | [] => (ret, w)
  | user :: rest =>
      if user_is_logged_in (mem w user) then
        let '(ret, w) := route_to_user target (info (mem w user)) w in
        if ret =? 0 then (ret, w)
        else send_user_list_loop target rest ret w
      else send_user_list_loop target rest ret w
  end.

(** [send_user_list], lines 175-196. *)
Definition send_user_list (target : ptr) (w : world) : Z * world :=
  let ret := 1 in
  let w := user_flag_set target flag_user_list w in
  let '(ret, w) :=
    send_user_list_loop target (users_list (users (hub w))) ret w in
  let w :=
    if send_queue_size (mem w target) =? 0
    then user_flag_unset target flag_user_list w
    else w in
  (ret, w).

(** The condition of the [if] in [send_quit_message]. *)
Definition is_forced_quit (r : user_quit_reason) : bool :=
  quit_reason_eqb r quit_banned || quit_reason_eqb r quit_kicked.

(** [send_quit_message], lines 199-211. *)
Definition send_quit_message (leaving : ptr) (w : world) : world :=
  let command := adc_msg_construct ADC_CMD_IQUI 6 in
  let command :=
    adc_msg_add_argument command (sid_to_string (id_sid (mem w leaving))) in
  let command :=
    if is_forced_quit (quit_reason (mem w leaving))
    then adc_msg_add_argument command ADC_QUI_FLAG_DISCONNECT
    else command in
  let w := route_to_all command w in
  adc_msg_free command w.

(** [user_manager_get_free_sid], line 230; the scan above it is compiled
    out. *)
Definition user_manager_get_free_sid (w : world) : Z * world :=
  let um := users (hub w) in
  (free_sid um, with_users w (set_free_sid um (wrap sid_bits (free_sid um + 1)))).

(** ** Sequences of registry operations *)

Inductive registry_op :=
| op_add (user : ptr)
| op_remove (user : ptr).

Definition run_op (w : world) (o : registry_op) : world :=
  match o with
  | op_add user => user_manager_add user w
  | op_remove user => user_manager_remove user w
  end.

Definition run_ops (w : world) (ops : list registry_op) : world :=
  fold_left run_op ops w.

(** [remove] is only called on a session that is registered at that time. *)
Fixpoint ops_valid (w : world) (ops : list registry_op) : Prop :=
  match ops with
  | [] => True
  | o :: rest =>
      match o with
      | op_add _ => True
      | op_remove user => In user (users_list (users (hub w)))
      end /\ ops_valid (run_op w o) rest
  end.

(** The values [count] takes after each operation of the sequence. *)
Fixpoint counts_seen (w : world) (ops : list registry_op) : list Z :=
  match ops with
  | [] => []
  | o :: rest => count (users (hub (run_op w o))) :: counts_seen (run_op w o) rest
  end.

(** The largest of [x] and the elements of [l]. *)
Definition max_seen (x : Z) (l : list Z) : Z := fold_left Z.max l x.

(** The sum of a limit over the registered sessions. *)
Definition total_of (f : user -> Z) (m : ptr -> user) (l : list ptr) : Z :=
  fold_right (fun p acc => f (m p) + acc) 0 l.

(** [n] calls of [user_manager_get_free_sid] in a row: the values returned,
    first to last, and the world they leave. *)
Fixpoint allocate_sids (n : nat) (w : world) : list Z * world :=
  match n with
  | O => ([], w)
  | S k =>
      let '(sid, w) := user_manager_get_free_sid w in
      let '(sids, w) := allocate_sids k w in
      (sid :: sids, w)
  end.

End UserManager.

(* ================================================================== *)
(** * The statistics line and runs of the whole module                 *)
(* ================================================================== *)

(** The width of C's [int], which [user_manager_print_stats] casts to. *)
Class Abi := {
  int_bits : N
}.

(** The conversion [(int) x] of an unsigned value: the value is kept
    modulo two to the width and read as two's complement. *)
Definition to_int `{Abi} (x : Z) : Z :=
  let y := wrap int_bits x in
  if y <? 2 ^ (Z.of_N int_bits - 1) then y else y - 2 ^ Z.of_N int_bits.

(** The six values [user_manager_print_stats] hands to [hub_log], in the
    order of the format string. *)
Record stats_line := mk_stats_line {
  line_users : Z;
  line_peak_users : Z;
  line_net_tx : Z;
  line_net_rx : Z;
  line_peak_tx : Z;
  line_peak_rx : Z
}.

(** [user_manager_print_stats], lines 60-69.  The cast binds tighter than
    the division, which is C's and truncates. *)
Definition user_manager_print_stats `{Abi} (w : world) : stats_line :=
  mk_stats_line
    (count (users (hub w)))
    (count_peak (users (hub w)))
    (Z.quot (to_int (net_tx (stats (hub w)))) 1024)
    (Z.quot (to_int (net_rx (stats (hub w)))) 1024)
    (Z.quot (to_int (net_tx_peak (stats (hub w)))) 1024)
    (Z.quot (to_int (net_rx_peak (stats (hub w)))) 1024).

(** Modelled from the spec: the network layer between two samples.  It
    owns the collector's counters, so it may leave any values in them. *)
Definition net_counted (interval cumulative : net_statistics) (w : world)
    : world :=
  mk_world (mem w) (hub w) interval cumulative (trace w).

Section HubRuns.
Context {platform : Platform} {routing : Routing}.

(** The sampling intervals of a running hub: in each, the network layer
    counts and then the timer fires. *)
Definition run_interval (w : world) (c : net_statistics * net_statistics)
    : world :=
  timer_statistics (net_counted (fst c) (snd c) w).

Definition run_intervals (w : world)
    (cs : list (net_statistics * net_statistics)) : world :=
  fold_left run_interval cs w.

(** What the event loop may call on a running hub, in any order. *)
Inductive hub_op :=
| h_add (user : ptr)
| h_remove (user : ptr)
| h_get_free_sid
| h_send_user_list (target : ptr)
| h_send_quit_message (leaving : ptr)
| h_counted (interval cumulative : net_statistics)
| h_timer.

Definition run_hub_op (w : world) (o : hub_op) : world :=
  match o with
  | h_add user => user_manager_add user w
  | h_remove user => user_manager_remove user w
  | h_get_free_sid => snd (user_manager_get_free_sid w)
  | h_send_user_list target => snd (send_user_list target w)
  | h_send_quit_message leaving => send_quit_message leaving w
  | h_counted interval cumulative => net_counted interval cumulative w
  | h_timer => timer_statistics w
  end.

Definition run_hub_ops (w : world) (ops : list hub_op) : world :=
  fold_left run_hub_op ops w.

(** [user_manager_remove] is only called on a registered session. *)
Fixpoint hub_ops_valid (w : world) (ops : list hub_op) : Prop :=
  match ops with
  | [] => True
  | o :: rest =>
      match o with
      | h_remove user => In user (users_list (users (hub w)))
      | _ => True
      end /\ hub_ops_valid (run_hub_op w o) rest
  end.

(** The session identifiers handed out along a run, first to last. *)
Fixpoint sids_given (w : world) (ops : list hub_op) : list Z :=
  match ops with
  | [] => []
  | o :: rest =>
      match o with
      | h_get_free_sid => [fst (user_manager_get_free_sid w)]
      | _ => []
      end ++ sids_given (run_hub_op w o) rest
  end.

Definition is_get_free_sid (o : hub_op) : bool :=
  match o with
  | h_get_free_sid => true
  | _ => false
  end.

(** How often [user] is added, and removed, by a sequence. *)
Definition adds_of (user : ptr) (ops : list registry_op) : nat :=
  length (filter (fun o => match o with
                           | op_add v => Pos.eqb v user
                           | op_remove _ => false
                           end) ops).

Definition removes_of (user : ptr) (ops : list registry_op) : nat :=
  length (filter (fun o => match o with
                           | op_add _ => false
                           | op_remove v => Pos.eqb v user
                           end) ops).

End HubRuns.

(** Two user objects that differ at most in the flags and the send queue
    size. *)
Definition same_but_flags_and_queue (u u' : user) : Prop :=
  set_flags (set_send_queue_size u' 0) 0 = set_flags (set_send_queue_size u 0) 0.

(** Two stores whose users declare the same limits. *)
Definition same_limits (m m' : ptr -> user) : Prop :=
  forall q,
    limits_shared_size (m' q) = limits_shared_size (m q) /\
    limits_shared_files (m' q) = limits_shared_files (m q).

(* ================================================================== *)
(** * Notions used to state the properties                             *)
(* ================================================================== *)

(** What the registry's aggregates keep of the membership list: each is
    the quantity it tracks, reduced to the width of its field, and the peak
    is at least the length of the list as far as [size_t] can tell. *)
Definition registry_inv `{Platform} (w : world) : Prop :=
  let um := users (hub w) in
  let n := Z.of_nat (length (users_list um)) in
  count um = wrap size_bits n /\
  shared_size um =
    wrap share_bits (total_of limits_shared_size (mem w) (users_list um)) /\
  shared_files um =
    wrap share_bits (total_of limits_shared_files (mem w) (users_list um)) /\
  count um <= count_peak um < 2 ^ Z.of_N size_bits /\
  Z.min n (2 ^ Z.of_N size_bits - 1) <= count_peak um.

(** The calls of [user_destroy] on [u] in a trace. *)
Definition destroy_calls (u : ptr) (t : list event) : nat :=
  length (filter (fun e => match e with
                           | ev_user_destroy v _ => Pos.eqb v u
                           | _ => false
                           end) t).

(** The registered sessions that are logged in, in list order. *)
Definition logged_in_users (w : world) : list ptr :=
  filter (fun u => user_is_logged_in (mem w u)) (users_list (users (hub w))).

(** The deliveries to [target] of the identity payloads of [sent], each
    with the value [route_to_user] returned for it. *)
Definition deliveries (target : ptr) (m : ptr -> user)
    (sent : list (ptr * Z)) : list event :=
  map (fun ur => ev_route_to_user target (info (m (fst ur))) (snd ur)) sent.

(** What marking a session and delivering to it leave of the user
    objects: who is logged in, and the identity payloads. *)
Definition kept (m m' : ptr -> user) : Prop :=
  forall q,
    logged_in (m' q) = logged_in (m q) /\ info (m' q) = info (m q).

(* ================================================================== *)
(** * A concrete platform and some hubs                                *)
(* ================================================================== *)

(** An LP64 build: [size_t] of 64 bits, [sid_t] of 32 bits, share totals
    of 64 bits, and the sampling interval of the specification's example.
    The flag, the command code, the flag token and the printing of a sid
    are stand-ins: no property below depends on their values. *)
Definition uhub_lp64 : Platform := {|
  size_bits := 64;
  sid_bits := 32;
  share_bits := 64;
  TIMEOUT_STATS := 5;
  flag_user_list := 4;
  ADC_CMD_IQUI := 0x49515549;
  ADC_QUI_FLAG_DISCONNECT := "DI";
  sid_to_string := fun sid =>
    String (Ascii.ascii_of_N (Z.to_N (65 + sid mod 26))) EmptyString
|}.

Definition zero_stats : hub_stats := mk_hub_stats 0 0 0 0 0 0.

Definition no_message : adc_message := mk_adc_message 0 [].

(** A logged-in user that declares [size] shared bytes in [files] files. *)
Definition sharing_user (sid size files : Z) : user :=
  mk_user sid "cid" "nick" (cred_level 1) size files quit_normal 0 0 true
    no_message.

(** A world before [user_manager_init], whose users all look like [u]. *)
Definition blank_world (u : user) : world :=
  mk_world (fun _ => u) (mk_hub_info (mk_user_manager [] 0 0 0 0 0) zero_stats)
    (mk_net_statistics 0 0) (mk_net_statistics 0 0) [].

(** A fresh hub. *)
Definition fresh_lp64 : world :=
  snd (user_manager_init (platform := uhub_lp64) true
         (blank_world (sharing_user 1 0 0))).

(** A fresh hub whose users declare 2^63 shared bytes each, and two of
    them joining. *)
Definition big_sharers : world :=
  snd (user_manager_init (platform := uhub_lp64) true
         (blank_world (sharing_user 1 (2 ^ 63) 10))).

Definition two_joins : list registry_op :=
  [op_add 1%positive; op_add 2%positive].

(** A fresh hub whose users declare 4096 bytes in 3 files; two sessions
    join and the first one leaves. *)
Definition join_join_leave_start : world :=
  snd (user_manager_init (platform := uhub_lp64) true
         (blank_world (sharing_user 7 4096 3))).

Definition join_join_leave : list registry_op :=
  [op_add 1%positive; op_add 2%positive; op_remove 1%positive].

(** The same hub when session 2 is registered and session 1 is not. *)
Definition one_registered : world :=
  user_manager_add (platform := uhub_lp64) 2%positive join_join_leave_start.

(** Three registered sessions, as [user_manager_shutdown] finds them. *)
Definition three_registered : world :=
  run_ops (platform := uhub_lp64) fresh_lp64
    [op_add 1%positive; op_add 2%positive; op_add 3%positive].

(** The specification's sampling example: 5120 bytes sent and 1024 bytes
    received in the interval, on a hub that has no peak yet. *)
Definition sampling_example : world :=
  mk_world (fun _ => sharing_user 1 0 0)
    (mk_hub_info fresh_user_manager zero_stats)
    (mk_net_statistics 5120 1024) (mk_net_statistics 70000 30000) [].

(** Sessions 1 to 4 of a small hub: session 2 has not logged in yet, and
    each session's payload carries its own number. *)
Definition member (p : ptr) : user :=
  mk_user (Z.pos p) "cid" "nick" (cred_level 1) 0 0 quit_normal 0 0
    (negb (Pos.eqb p 2))
    (mk_adc_message 0x42494e46 [sid_to_string (Platform := uhub_lp64) (Z.pos p)]).

Definition small_hub : world :=
  mk_world member
    (mk_hub_info
       (mk_user_manager [1%positive; 2%positive; 3%positive; 4%positive]
          4 4 5 0 0) zero_stats)
    (mk_net_statistics 0 0) (mk_net_statistics 0 0) [].

(** A routing layer that delivers everything and drains the queue. *)
Definition delivers_all : Routing := {|
  route_outcome := fun _ _ _ => (1, 0)
|}.

(** A routing layer whose queue is full after one delivery: the second
    delivery fails and 512 bytes stay queued. *)
Definition full_after_one : Routing := {|
  route_outcome := fun v _ _ =>
    if (length (filter (fun e => match e with
                                 | ev_route_to_user _ _ _ => true
                                 | _ => false
                                 end) (trace v)) <? 1)%nat
    then (1, 512) else (0, 512)
|}.

(** A routing layer that takes list traffic only for a target that is
    marked with [flag_user_list], and refuses it otherwise. *)
Definition refuses_unmarked : Routing := {|
  route_outcome := fun v target _ =>
    if Z.land (flags (mem v target)) (flag_user_list (Platform := uhub_lp64))
       =? flag_user_list (Platform := uhub_lp64)
    then (1, 0) else (0, 512)
|}.

(** A run that mixes everything: two sessions get their identifiers and
    join, the first receives the session list, traffic is counted and
    sampled, and the first session is announced as leaving and removed. *)
Definition busy_run : list hub_op :=
  [h_get_free_sid; h_add 1%positive; h_get_free_sid; h_add 2%positive;
   h_send_user_list 1%positive;
   h_counted (mk_net_statistics 5120 1024) (mk_net_statistics 5120 1024);
   h_timer; h_send_quit_message 1%positive; h_remove 1%positive].

(** A hub whose last sample saw 3 GiB/s sent. *)
Definition fast_hub : world :=
  mk_world (fun _ => sharing_user 1 0 0)
    (mk_hub_info fresh_user_manager
       (mk_hub_stats (3 * 2 ^ 30) 0 0 0 0 0))
    (mk_net_statistics 0 0) (mk_net_statistics 0 0) [].

(** An ABI with an [int] of 32 bits. *)
Definition int32 : Abi := {| int_bits := 32 |}.

(* ================================================================== *)
(** * Arithmetic and list lemmas                                       *)
(* ================================================================== *)

Lemma modulus_pos (b : N) : 0 < 2 ^ Z.of_N b.
Proof. apply Z.pow_pos_nonneg; lia. Qed.

Lemma wrap_range (b : N) (x : Z) : 0 <= wrap b x < 2 ^ Z.of_N b.
Proof. unfold wrap. apply Z.mod_pos_bound, modulus_pos. Qed.

Lemma wrap_small (b : N) (x : Z) : 0 <= x < 2 ^ Z.of_N b -> wrap b x = x.
Proof. intros Hx. unfold wrap. now apply Z.mod_small. Qed.

Lemma wrap_add_l (b : N) (x y : Z) : wrap b (wrap b x + y) = wrap b (x + y).
Proof. unfold wrap. apply Zplus_mod_idemp_l. Qed.

Lemma wrap_sub_l (b : N) (x y : Z) : wrap b (wrap b x - y) = wrap b (x - y).
Proof. unfold wrap. apply Zminus_mod_idemp_l. Qed.

Lemma MAX_max (a b : Z) : MAX a b = Z.max a b.
Proof. unfold MAX. destruct (Z.gtb_spec a b); lia. Qed.

Lemma list_remove_absent (l : list ptr) (p : ptr) :
  ~ In p l -> list_remove l p = l.
Proof.
  induction l as [|q l IH]; simpl; intros Hp; [reflexivity|].
  destruct (Pos.eqb_spec q p) as [->|_].
  - exfalso. apply Hp. now left.
  - f_equal. apply IH. intros Hin. apply Hp. now right.
Qed.

Lemma list_remove_length (l : list ptr) (p : ptr) :
  In p l -> Z.of_nat (length (list_remove l p)) = Z.of_nat (length l) - 1.
Proof.
  induction l as [|q l IH]; intros Hp; [contradiction|].
  cbn [list_remove length]. rewrite Nat2Z.inj_succ.
  destruct (Pos.eqb_spec q p) as [->|Hne].
  - lia.
  - destruct Hp as [Hp|Hp]; [congruence|].
    cbn [length]. rewrite Nat2Z.inj_succ, IH by assumption. lia.
Qed.

Lemma list_remove_appended (l : list ptr) (p : ptr) :
  ~ In p l -> list_remove (list_append l p) p = l.
Proof.
  unfold list_append.
  induction l as [|q l IH]; simpl; intros Hp.
  - now rewrite Pos.eqb_refl.
  - destruct (Pos.eqb_spec q p) as [->|_].
    + exfalso. apply Hp. now left.
    + f_equal. apply IH. intros Hin. apply Hp. now right.
Qed.

Lemma total_of_append (f : user -> Z) (m : ptr -> user) (l : list ptr) (p : ptr) :
  total_of f m (list_append l p) = total_of f m l + f (m p).
Proof.
  unfold list_append. induction l as [|q l IH]; simpl; [lia|].
  rewrite IH. lia.
Qed.

Lemma total_of_remove (f : user -> Z) (m : ptr -> user) (l : list ptr) (p : ptr) :
  In p l -> total_of f m (list_remove l p) = total_of f m l - f (m p).
Proof.
  induction l as [|q l IH]; simpl; intros Hp; [contradiction|].
  destruct (Pos.eqb_spec q p) as [->|Hne].
  - lia.
  - destruct Hp as [Hp|Hp]; [congruence|].
    simpl. rewrite IH by assumption. lia.
Qed.

Lemma max_seen_le (l : list Z) (x : Z) : x <= max_seen x l.
Proof.
  unfold max_seen. revert x.
  induction l as [|y l IH]; simpl; intros x; [lia|].
  specialize (IH (Z.max x y)). lia.
Qed.

Lemma max_seen_upper (l : list Z) (x : Z) : Forall (fun y => y <= max_seen x l) l.
Proof.
  unfold max_seen. revert x.
  induction l as [|y l IH]; simpl; intros x; constructor.
  - pose proof (max_seen_le l (Z.max x y)) as Hle. unfold max_seen in Hle. lia.
  - apply IH.
Qed.

Lemma max_seen_attained (l : list Z) (x : Z) :
  max_seen x l = x \/ In (max_seen x l) l.
Proof.
  unfold max_seen. revert x.
  induction l as [|y l IH]; simpl; intros x; [now left|].
  destruct (IH (Z.max x y)) as [Heq|Hin].
  - rewrite Heq. destruct (Z.max_spec x y) as [[_ ->]|[_ ->]]; auto.
  - right. now right.
Qed.

(* ================================================================== *)
(** * The registry's aggregates                                        *)
(* ================================================================== *)

(** One registry operation, seen through its effect on the fields. *)
Ltac registry_step :=
  cbn -[wrap Z.of_nat Z.of_N Z.pow Z.min Z.max MAX total_of list_append
        list_remove length].

Section Registry.
Context {platform : Platform}.

Lemma mem_add (user : ptr) (w : world) : mem (user_manager_add user w) = mem w.
Proof. reflexivity. Qed.

Lemma mem_remove (user : ptr) (w : world) :
  mem (user_manager_remove user w) = mem w.
Proof. reflexivity. Qed.

Lemma mem_run_ops (ops : list registry_op) (w : world) :
  mem (run_ops w ops) = mem w.
Proof.
  revert w. induction ops as [|o ops IH]; intros w; [reflexivity|].
  cbn [run_ops fold_left]. fold (run_ops (run_op w o) ops).
  rewrite IH. destruct o; reflexivity.
Qed.

Lemma fresh_inv (w : world) : registry_inv (snd (user_manager_init true w)).
Proof.
  unfold registry_inv. cbn -[wrap Z.pow Z.of_N].
  pose proof (modulus_pos size_bits).
  pose proof (modulus_pos share_bits).
  rewrite !wrap_small by lia.
  repeat split; lia.
Qed.

Lemma add_inv (user : ptr) (w : world) :
  registry_inv w -> registry_inv (user_manager_add user w).
Proof.
  unfold registry_inv. intros (Hc & Hs & Hf & Hp & Hm).
  registry_step.
  rewrite !total_of_append, Hc, Hs, Hf, !wrap_add_l, MAX_max.
  assert (Hlen : Z.of_nat (length (list_append (users_list (users (hub w))) user))
                 = Z.of_nat (length (users_list (users (hub w)))) + 1).
  { unfold list_append. rewrite length_app. cbn [length]. lia. }
  rewrite Hlen.
  set (n := Z.of_nat (length (users_list (users (hub w))))) in *.
  pose proof (wrap_range size_bits (n + 1)) as Hr.
  repeat split; try lia.
  destruct (Z_lt_le_dec (n + 1) (2 ^ Z.of_N size_bits)) as [Hlt|Hge].
  - rewrite (wrap_small size_bits (n + 1)) by lia. lia.
  - lia.
Qed.

Lemma remove_inv (user : ptr) (w : world) :
  registry_inv w -> In user (users_list (users (hub w))) ->
  registry_inv (user_manager_remove user w) /\
  count (users (hub (user_manager_remove user w))) <= count_peak (users (hub w)).
Proof.
  unfold registry_inv. intros (Hc & Hs & Hf & Hp & Hm) Hin.
  registry_step.
  rewrite !total_of_remove, list_remove_length by assumption.
  rewrite Hc, Hs, Hf, !wrap_sub_l.
  assert (Hpos : 1 <= Z.of_nat (length (users_list (users (hub w))))).
  { destruct (users_list (users (hub w))); [contradiction|].
    cbn [length]. lia. }
  set (n := Z.of_nat (length (users_list (users (hub w))))) in *.
  pose proof (wrap_range size_bits (n - 1)) as Hr.
  assert (Hle : wrap size_bits (n - 1) <= count_peak (users (hub w))).
  { destruct (Z_lt_le_dec n (2 ^ Z.of_N size_bits)) as [Hlt|Hge].
    - rewrite (wrap_small size_bits (n - 1)) by lia.
      rewrite (wrap_small size_bits n) in Hc by lia. lia.
    - lia. }
  repeat split; lia.
Qed.

Lemma run_ops_inv (ops : list registry_op) (w : world) :
  registry_inv w -> ops_valid w ops ->
  registry_inv (run_ops w ops) /\
  count_peak (users (hub (run_ops w ops))) =
    max_seen (count_peak (users (hub w))) (counts_seen w ops).
Proof.
  revert w. induction ops as [|o ops IH]; intros w Hinv Hvalid.
  - split; [assumption|reflexivity].
  - destruct Hvalid as [Hnow Hrest].
    cbn [run_ops fold_left counts_seen max_seen].
    fold (run_ops (run_op w o) ops).
    fold (max_seen (Z.max (count_peak (users (hub w)))
                      (count (users (hub (run_op w o)))))
            (counts_seen (run_op w o) ops)).
    destruct o as [user|user]; cbn [run_op] in *.
    + pose proof (add_inv user w Hinv) as Hinv'.
      destruct (IH _ Hinv' Hrest) as [Hfinal Hpeak].
      split; [assumption|]. rewrite Hpeak. f_equal.
      registry_step. rewrite MAX_max. lia.
    + destruct (remove_inv user w Hinv Hnow) as [Hinv' Hle].
      destruct (IH _ Hinv' Hrest) as [Hfinal Hpeak].
      split; [assumption|]. rewrite Hpeak. f_equal.
      change (count_peak (users (hub (user_manager_remove user w))))
        with (count_peak (users (hub w))).
      lia.
Qed.

(** C1 (as amended): from a freshly initialized registry, after any
    sequence of [add] and [remove] in which [remove] is only called on a
    registered session, [count] is the number of registered sessions and
    the two share totals are the sums of the sessions' limits, each reduced
    modulo two to the width of its field, so each is exactly that number or
    sum whenever it fits the field; [count_peak] is the largest value
    [count] has taken. *)
Theorem registry_aggregates (w : world) (ops : list registry_op) :
  let w0 := snd (user_manager_init true w) in
  ops_valid w0 ops ->
  let w' := run_ops w0 ops in
  let um := users (hub w') in
  let registered := Z.of_nat (length (users_list um)) in
  let size_sum := total_of limits_shared_size (mem w') (users_list um) in
  let files_sum := total_of limits_shared_files (mem w') (users_list um) in
  count um = wrap size_bits registered /\
  count_peak um = max_seen (count (users (hub w0))) (counts_seen w0 ops) /\
  shared_size um = wrap share_bits size_sum /\
  shared_files um = wrap share_bits files_sum /\
  (registered < 2 ^ Z.of_N size_bits -> count um = registered) /\
  (0 <= size_sum < 2 ^ Z.of_N share_bits -> shared_size um = size_sum) /\
  (0 <= files_sum < 2 ^ Z.of_N share_bits -> shared_files um = files_sum).
Proof.
  intros w0 Hvalid w' um registered size_sum files_sum.
  destruct (run_ops_inv ops w0 (fresh_inv w) Hvalid)
    as [(Hc & Hs & Hf & _ & _) Hpeak].
  fold w' in Hc, Hs, Hf, Hpeak. fold um in Hc, Hs, Hf, Hpeak.
  fold registered in Hc. fold size_sum in Hs. fold files_sum in Hf.
  repeat split; try assumption.
  - intros Hfit. rewrite Hc. apply wrap_small. unfold registered in *. lia.
  - intros Hfit. rewrite Hs. now apply wrap_small.
  - intros Hfit. rewrite Hf. now apply wrap_small.
Qed.

(** Whatever the width of the share totals, two sessions that declare half
    of its range each bring [shared_size] back to zero. *)
Lemma shared_size_overflows_at_any_width (w : world) (a b : ptr) :
  (0 < share_bits)%N ->
  limits_shared_size (mem w a) = 2 ^ (Z.of_N share_bits - 1) ->
  limits_shared_size (mem w b) = 2 ^ (Z.of_N share_bits - 1) ->
  let w' := run_ops (snd (user_manager_init true w)) [op_add a; op_add b] in
  shared_size (users (hub w')) = 0 /\
  total_of limits_shared_size (mem w') (users_list (users (hub w')))
    = 2 ^ Z.of_N share_bits.
Proof.
  intros Hbits Ha Hb.
  assert (Hdouble : 2 ^ (Z.of_N share_bits - 1) + 2 ^ (Z.of_N share_bits - 1)
                    = 2 ^ Z.of_N share_bits).
  { replace (Z.of_N share_bits) with (Z.succ (Z.of_N share_bits - 1)) at 3 by lia.
    rewrite Z.pow_succ_r by lia. lia. }
  registry_step. rewrite Ha, Hb. split.
  - rewrite wrap_add_l, Hdouble. unfold wrap. apply Z.mod_same.
    pose proof (modulus_pos share_bits). lia.
  - rewrite !total_of_append, Ha, Hb. cbn [total_of fold_right]. lia.
Qed.

End Registry.

Section RegistryExamples.
#[local] Existing Instance uhub_lp64.

Lemma registry_aggregates_witness :
  ops_valid join_join_leave_start join_join_leave /\
  count (users (hub (run_ops join_join_leave_start join_join_leave))) = 1 /\
  count_peak (users (hub (run_ops join_join_leave_start join_join_leave))) = 2 /\
  shared_size (users (hub (run_ops join_join_leave_start join_join_leave)))
    = 4096 /\
  shared_files (users (hub (run_ops join_join_leave_start join_join_leave)))
    = 3.
Proof.
  unfold join_join_leave_start.
  assert (Hvalid : ops_valid
                     (snd (user_manager_init true
                             (blank_world (sharing_user 7 4096 3))))
                     join_join_leave).
  { cbn. repeat split. now left. }
  split; [exact Hvalid|].
  destruct (registry_aggregates (blank_world (sharing_user 7 4096 3))
              join_join_leave Hvalid) as (Hc & Hp & Hs & Hf & _).
  rewrite Hc, Hp, Hs, Hf. repeat split.
Defined.

(** The totals outgrow their field: two sessions that declare 2^63 shared
    bytes each leave [shared_size] at zero, while the sum is 2^64. *)
Lemma shared_size_total_overflows :
  ops_valid big_sharers two_joins /\
  shared_size (users (hub (run_ops big_sharers two_joins))) = 0 /\
  total_of limits_shared_size (mem (run_ops big_sharers two_joins))
    (users_list (users (hub (run_ops big_sharers two_joins)))) = 2 ^ 64 /\
  shared_size (users (hub (run_ops big_sharers two_joins))) <>
  total_of limits_shared_size (mem (run_ops big_sharers two_joins))
    (users_list (users (hub (run_ops big_sharers two_joins)))).
Proof.
  repeat split; try reflexivity. vm_compute. discriminate.
Qed.

End RegistryExamples.

(* ================================================================== *)
(** * Session identifiers                                              *)
(* ================================================================== *)

Section Sids.
Context {platform : Platform}.

Lemma get_free_sid_returns (w : world) :
  fst (user_manager_get_free_sid w) = free_sid (users (hub w)).
Proof. reflexivity. Qed.

Lemma get_free_sid_increments (w : world) :
  free_sid (users (hub (snd (user_manager_get_free_sid w)))) =
  wrap sid_bits (free_sid (users (hub w)) + 1).
Proof. reflexivity. Qed.

Lemma get_free_sid_frame (w : world) :
  users_list (users (hub (snd (user_manager_get_free_sid w)))) =
    users_list (users (hub w)) /\
  mem (snd (user_manager_get_free_sid w)) = mem w.
Proof. split; reflexivity. Qed.

Lemma add_keeps_free_sid (user : ptr) (w : world) :
  free_sid (users (hub (user_manager_add user w))) = free_sid (users (hub w)).
Proof. reflexivity. Qed.

Lemma joins_keep_free_sid (joined : list ptr) (w : world) :
  free_sid (users (hub (fold_left (fun w u => user_manager_add u w) joined w)))
  = free_sid (users (hub w)).
Proof.
  revert w. induction joined as [|u joined IH]; intros w; [reflexivity|].
  cbn [fold_left]. rewrite IH. apply add_keeps_free_sid.
Qed.

Lemma allocate_sids_step (n : nat) (w : world) :
  fst (allocate_sids (S n) w) =
  free_sid (users (hub w))
    :: fst (allocate_sids n (snd (user_manager_get_free_sid w))).
Proof.
  cbn [allocate_sids].
  destruct (user_manager_get_free_sid w) as [sid w1] eqn:E.
  pose proof (get_free_sid_returns w) as Hsid. rewrite E in Hsid.
  cbn [fst snd] in *. subst sid.
  now destruct (allocate_sids n w1).
Qed.

(** The values of [n + 1] calls in a row: the counter itself, then the
    counter plus the number of calls made before, in [sid_t]. *)
Lemma allocate_sids_closed_form (n : nat) (w : world) :
  fst (allocate_sids (S n) w) =
  free_sid (users (hub w))
    :: map (fun k => wrap sid_bits (free_sid (users (hub w)) + Z.of_nat k))
         (seq 1 n).
Proof.
  revert w. induction n as [|n IH]; intros w.
  - rewrite allocate_sids_step. reflexivity.
  - rewrite allocate_sids_step, IH, get_free_sid_increments.
    f_equal. cbn [seq map]. f_equal.
    rewrite <- (seq_shift n 1), map_map. apply map_ext. intros k.
    rewrite wrap_add_l. f_equal. lia.
Qed.

Lemma allocate_sids_length (n : nat) (w : world) :
  length (fst (allocate_sids n w)) = n.
Proof.
  revert w. induction n as [|n IH]; intros w; [reflexivity|].
  rewrite allocate_sids_step. cbn [length]. now rewrite IH.
Qed.

(** The call number [k + 1], for [k] at least one. *)
Lemma allocate_sids_nth (n k : nat) (w : world) :
  (1 <= k < n)%nat ->
  nth_error (fst (allocate_sids n w)) k =
  Some (wrap sid_bits (free_sid (users (hub w)) + Z.of_nat k)).
Proof.
  intros Hk. destruct n as [|n]; [lia|].
  rewrite allocate_sids_closed_form.
  destruct k as [|k]; [lia|]. cbn [nth_error].
  rewrite nth_error_map, nth_error_seq.
  destruct (Nat.ltb_spec k n); [|lia].
  cbn [option_map]. do 2 f_equal.
Qed.

Lemma count_up_sorted (a n : nat) :
  StronglySorted Z.lt (map Z.of_nat (seq a n)).
Proof.
  revert a. induction n as [|n IH]; intros a; cbn [seq map]; constructor.
  - apply IH.
  - apply Forall_forall. intros x Hx.
    apply in_map_iff in Hx. destruct Hx as (k & <- & Hk).
    apply in_seq in Hk. lia.
Qed.

Lemma count_up_nodup (a n : nat) : NoDup (map Z.of_nat (seq a n)).
Proof.
  apply Finite.Injective_map_NoDup; [|apply seq_NoDup].
  intros x y. apply Nat2Z.inj.
Qed.

(** C3 (as amended): after [user_manager_init], and whatever sessions have
    joined since, [n] calls of [user_manager_get_free_sid] in a row return
    1, 2, ..., n, as long as [n] is below two to the width of [sid_t]; the
    values are strictly increasing and distinct.  Each call returns
    [free_sid] as it stands and leaves it one higher (in [sid_t]), and it
    looks at no registered session. *)
Theorem allocate_sids_counts_up (w : world) (joined : list ptr) (n : nat) :
  let w0 := fold_left (fun w u => user_manager_add u w) joined
              (snd (user_manager_init true w)) in
  Z.of_nat n < 2 ^ Z.of_N sid_bits ->
  fst (allocate_sids n w0) = map Z.of_nat (seq 1 n) /\
  StronglySorted Z.lt (fst (allocate_sids n w0)) /\
  NoDup (fst (allocate_sids n w0)) /\
  (forall w1 : world,
     fst (user_manager_get_free_sid w1) = free_sid (users (hub w1)) /\
     free_sid (users (hub (snd (user_manager_get_free_sid w1)))) =
       wrap sid_bits (free_sid (users (hub w1)) + 1)).
Proof.
  intros w0 Hn.
  assert (Hfree : free_sid (users (hub w0)) = 1).
  { unfold w0. rewrite joins_keep_free_sid. reflexivity. }
  assert (Hsids : fst (allocate_sids n w0) = map Z.of_nat (seq 1 n)).
  { destruct n as [|n]; [reflexivity|].
    rewrite allocate_sids_closed_form, Hfree.
    cbn [seq map]. f_equal.
    rewrite <- (seq_shift n 1), map_map. apply map_ext_in. intros k Hk.
    apply in_seq in Hk. rewrite wrap_small; lia. }
  rewrite Hsids.
  repeat split.
  - apply count_up_sorted.
  - apply count_up_nodup.
Qed.

(** Whatever the width of [sid_t], the call that exhausts it returns 0. *)
Lemma sid_counter_wraps_at_any_width (w : world) :
  (0 < sid_bits)%N ->
  nth_error
    (fst (allocate_sids (Z.to_nat (2 ^ Z.of_N sid_bits))
            (snd (user_manager_init true w))))
    (Z.to_nat (2 ^ Z.of_N sid_bits - 1)) = Some 0.
Proof.
  intros Hbits.
  assert (H2 : 2 <= 2 ^ Z.of_N sid_bits).
  { change 2 with (2 ^ 1) at 1. apply Z.pow_le_mono_r; lia. }
  rewrite allocate_sids_nth by lia.
  rewrite Z2Nat.id by lia. f_equal.
  change (free_sid (users (hub (snd (user_manager_init true w))))) with 1.
  replace (1 + (2 ^ Z.of_N sid_bits - 1)) with (2 ^ Z.of_N sid_bits) by lia.
  unfold wrap. apply Z.mod_same. lia.
Qed.

End Sids.

Section SidExamples.
#[local] Existing Instance uhub_lp64.

Lemma allocate_sids_counts_up_witness :
  fst (allocate_sids 3 one_registered) = [1; 2; 3].
Proof.
  apply (allocate_sids_counts_up (blank_world (sharing_user 7 4096 3))
           [2%positive] 3).
  cbn. lia.
Defined.

(** [sid_t] runs out: of 2^32 calls on a fresh hub the last but one
    returns 2^32 - 1 and the last returns 0, which is not above it. *)
Lemma sid_counter_wraps :
  nth_error (fst (allocate_sids (Z.to_nat (2 ^ 32)) fresh_lp64))
    (Z.to_nat (2 ^ 32 - 2)) = Some (2 ^ 32 - 1) /\
  nth_error (fst (allocate_sids (Z.to_nat (2 ^ 32)) fresh_lp64))
    (Z.to_nat (2 ^ 32 - 1)) = Some 0.
Proof.
  split.
  - rewrite allocate_sids_nth by lia.
    rewrite Z2Nat.id by lia. reflexivity.
  - rewrite allocate_sids_nth by lia.
    rewrite Z2Nat.id by lia. reflexivity.
Qed.

End SidExamples.

(* ================================================================== *)
(** * Removing a session that is not registered                        *)
(* ================================================================== *)

Section RemoveAbsent.
Context {platform : Platform}.

(** C4 (as amended): [user_manager_remove] on a session that is not in the
    membership list leaves the list as it is, and still takes one from
    [count] and the session's limits from the two totals, each in the
    arithmetic of its field; [count_peak] and [free_sid] are kept. *)
Theorem remove_absent (user : ptr) (w : world) :
  ~ In user (users_list (users (hub w))) ->
  let um := users (hub w) in
  let um' := users (hub (user_manager_remove user w)) in
  users_list um' = users_list um /\
  count um' = wrap size_bits (count um - 1) /\
  shared_size um' =
    wrap share_bits (shared_size um - limits_shared_size (mem w user)) /\
  shared_files um' =
    wrap share_bits (shared_files um - limits_shared_files (mem w user)) /\
  count_peak um' = count_peak um /\
  free_sid um' = free_sid um.
Proof.
  intros Habsent um um'. unfold um', um.
  registry_step. rewrite (list_remove_absent _ _ Habsent).
  repeat split.
Qed.

(** On an unsigned [count] the decrement always shows: the new value is
    never the old one, when the field has at least one bit. *)
Lemma remove_changes_count (user : ptr) (w : world) :
  (0 < size_bits)%N ->
  0 <= count (users (hub w)) < 2 ^ Z.of_N size_bits ->
  count (users (hub (user_manager_remove user w))) <> count (users (hub w)).
Proof.
  intros Hbits Hrange. registry_step. unfold wrap.
  assert (H2 : 2 <= 2 ^ Z.of_N size_bits).
  { change 2 with (2 ^ 1) at 1. apply Z.pow_le_mono_r; lia. }
  destruct (Z.eq_dec (count (users (hub w))) 0) as [E|E].
  - rewrite E. replace (0 - 1) with (- (1)) by lia.
    rewrite Z.mod_opp_l_nz; rewrite ?Z.mod_small; lia.
  - rewrite Z.mod_small; lia.
Qed.

End RemoveAbsent.

Section RemoveAbsentExamples.
#[local] Existing Instance uhub_lp64.

Lemma remove_absent_witness :
  users_list (users (hub (user_manager_remove 1%positive one_registered))) =
    [2%positive] /\
  count (users (hub (user_manager_remove 1%positive one_registered))) = 0.
Proof.
  destruct (remove_absent 1%positive one_registered) as (Hl & Hc & _).
  - cbn. intros [H|[]]. discriminate H.
  - split; [exact Hl|]. rewrite Hc. reflexivity.
Defined.

(** Removing an absent session is no no-op: session 1 is not registered,
    and removing it takes [count] from 1 to 0 and its 4096 declared bytes
    and 3 declared files from the totals, while the list keeps its one
    session. *)
Lemma remove_absent_changes_aggregates :
  users_list (users (hub one_registered)) = [2%positive] /\
  users_list (users (hub (user_manager_remove 1%positive one_registered))) =
    [2%positive] /\
  count (users (hub one_registered)) = 1 /\
  count (users (hub (user_manager_remove 1%positive one_registered))) = 0 /\
  shared_size (users (hub one_registered)) = 4096 /\
  shared_size (users (hub (user_manager_remove 1%positive one_registered))) = 0 /\
  shared_files (users (hub one_registered)) = 3 /\
  shared_files (users (hub (user_manager_remove 1%positive one_registered))) = 0.
Proof. repeat split. Qed.

End RemoveAbsentExamples.

(* ================================================================== *)
(** * Lookups                                                          *)
(* ================================================================== *)

Section Lookups.
Context {platform : Platform}.

Lemma first_user_none (test : user -> bool) (m : ptr -> user) (l : list ptr) :
  first_user test m l = None <-> Forall (fun q => test (m q) = false) l.
Proof.
  induction l as [|q l IH]; cbn [first_user].
  - split; [constructor|reflexivity].
  - destruct (test (m q)) eqn:E.
    + split; [discriminate|]. intros H. inversion H; congruence.
    + rewrite IH. split; [now constructor|]. intros H. now inversion H.
Qed.

(** A lookup answers with the first session of the list that passes the
    test: no session inserted before it does. *)
Lemma first_user_earliest (test : user -> bool) (m : ptr -> user)
    (l : list ptr) (q : ptr) :
  first_user test m l = Some q ->
  exists before after,
    l = before ++ q :: after /\ test (m q) = true /\
    Forall (fun x => test (m x) = false) before.
Proof.
  induction l as [|x l IH]; cbn [first_user]; [discriminate|].
  destruct (test (m x)) eqn:E.
  - intros [= <-]. exists [], l. repeat split; [assumption|constructor].
  - intros Hq. destruct (IH Hq) as (before & after & -> & Ht & Hb).
    exists (x :: before), after. repeat split; [assumption|now constructor].
Qed.

Lemma first_user_appended (test : user -> bool) (m : ptr -> user)
    (l : list ptr) (p : ptr) :
  first_user test m (list_append l p) =
  match first_user test m l with
  | Some q => Some q
  | None => if test (m p) then Some p else None
  end.
Proof.
  unfold list_append. induction l as [|x l IH]; cbn [first_user app].
  - reflexivity.
  - destruct (test (m x)); [reflexivity|apply IH].
Qed.

(** A session that passes the test and is registered is found, or one
    before it is. *)
Lemma first_user_absent (test : user -> bool) (m : ptr -> user)
    (l : list ptr) (p : ptr) :
  first_user test m l = None -> test (m p) = true -> ~ In p l.
Proof.
  intros Hnone Hp Hin. apply first_user_none in Hnone.
  rewrite Forall_forall in Hnone. specialize (Hnone p Hin). congruence.
Qed.

(** The three lookups go the same way once the test is fixed. *)
Lemma lookup_round_trip (test : user -> bool) (w : world) (p : ptr) :
  test (mem w p) = true ->
  first_user test (mem w) (users_list (users (hub w))) = None ->
  first_user test (mem (user_manager_add p w))
    (users_list (users (hub (user_manager_add p w)))) = Some p /\
  first_user test (mem (user_manager_remove p (user_manager_add p w)))
    (users_list (users (hub (user_manager_remove p (user_manager_add p w)))))
    = None.
Proof.
  intros Hp Hnone. split.
  - registry_step. rewrite first_user_appended, Hnone, Hp. reflexivity.
  - registry_step.
    rewrite list_remove_appended by (eapply first_user_absent; eassumption).
    exact Hnone.
Qed.

(** C9: the three lookups find nothing in an empty registry; once a
    session is added (no registered session carrying its sid, cid or nick
    already), the lookup with its sid, its cid or its nick returns that
    very session; once it is removed again they find nothing.  What a
    lookup returns is always the earliest inserted session that matches. *)
Theorem lookups_follow_membership (w : world) (p : ptr) :
  get_user_by_sid w (id_sid (mem w p)) = None ->
  get_user_by_cid w (id_cid (mem w p)) = None ->
  get_user_by_nick w (id_nick (mem w p)) = None ->
  let added := user_manager_add p w in
  let removed := user_manager_remove p added in
  (forall w0 sid cid nick,
     get_user_by_sid (snd (user_manager_init true w0)) sid = None /\
     get_user_by_cid (snd (user_manager_init true w0)) cid = None /\
     get_user_by_nick (snd (user_manager_init true w0)) nick = None) /\
  (get_user_by_sid added (id_sid (mem w p)) = Some p /\
   get_user_by_cid added (id_cid (mem w p)) = Some p /\
   get_user_by_nick added (id_nick (mem w p)) = Some p) /\
  (get_user_by_sid removed (id_sid (mem w p)) = None /\
   get_user_by_cid removed (id_cid (mem w p)) = None /\
   get_user_by_nick removed (id_nick (mem w p)) = None) /\
  (forall w1 sid q,
     get_user_by_sid w1 sid = Some q ->
     exists before after,
       users_list (users (hub w1)) = before ++ q :: after /\
       id_sid (mem w1 q) = sid /\
       Forall (fun x => id_sid (mem w1 x) <> sid) before) /\
  (forall w1 cid q,
     get_user_by_cid w1 cid = Some q ->
     exists before after,
       users_list (users (hub w1)) = before ++ q :: after /\
       id_cid (mem w1 q) = cid /\
       Forall (fun x => id_cid (mem w1 x) <> cid) before) /\
  (forall w1 nick q,
     get_user_by_nick w1 nick = Some q ->
     exists before after,
       users_list (users (hub w1)) = before ++ q :: after /\
       id_nick (mem w1 q) = nick /\
       Forall (fun x => id_nick (mem w1 x) <> nick) before).
Proof.
  intros Hsid Hcid Hnick added removed. unfold added, removed.
  unfold get_user_by_sid, get_user_by_cid, get_user_by_nick in *.
  pose proof (lookup_round_trip (fun u => id_sid u =? id_sid (mem w p)) w p
                (Z.eqb_refl _) Hsid) as [Ha1 Hr1].
  pose proof (lookup_round_trip (fun u => String.eqb (id_cid u) (id_cid (mem w p)))
                w p (String.eqb_refl _) Hcid) as [Ha2 Hr2].
  pose proof (lookup_round_trip (fun u => String.eqb (id_nick u) (id_nick (mem w p)))
                w p (String.eqb_refl _) Hnick) as [Ha3 Hr3].
  do 3 (split; [repeat split; assumption|]).
  split; [|split]; intros w1 key q Hq;
    destruct (first_user_earliest _ _ _ _ Hq) as (before & after & Hl & Ht & Hb);
    exists before, after; (split; [exact Hl|]).
  - split; [now apply Z.eqb_eq|].
    eapply Forall_impl; [|exact Hb]. intros x Hx. now apply Z.eqb_neq.
  - split; [now apply String.eqb_eq|].
    eapply Forall_impl; [|exact Hb]. intros x Hx. now apply String.eqb_neq.
  - split; [now apply String.eqb_eq|].
    eapply Forall_impl; [|exact Hb]. intros x Hx. now apply String.eqb_neq.
Qed.

End Lookups.

Section LookupExamples.
#[local] Existing Instance uhub_lp64.

Lemma lookups_follow_membership_witness :
  get_user_by_sid (user_manager_add 1%positive fresh_lp64) 1 = Some 1%positive /\
  get_user_by_sid
    (user_manager_remove 1%positive (user_manager_add 1%positive fresh_lp64)) 1
    = None.
Proof.
  destruct (lookups_follow_membership fresh_lp64 1%positive)
    as (_ & (Ha & _) & (Hr & _) & _); try reflexivity.
  split; [exact Ha|exact Hr].
Defined.

End LookupExamples.

(* ================================================================== *)
(** * The statistics sampler                                           *)
(* ================================================================== *)

Section Stats.
Context {platform : Platform}.

(** X1: one sample sets the two rates to the interval counters divided by
    [TIMEOUT_STATS], copies the cumulative counters into the totals, and
    resets the interval counters. *)
Lemma update_stats_rates (w : world) :
  let w' := user_manager_update_stats w in
  net_tx (stats (hub w')) = Z.quot (tx (net_intermediate w)) TIMEOUT_STATS /\
  net_rx (stats (hub w')) = Z.quot (rx (net_intermediate w)) TIMEOUT_STATS /\
  net_tx_total (stats (hub w')) = tx (net_total w) /\
  net_rx_total (stats (hub w')) = rx (net_total w) /\
  net_intermediate w' = mk_net_statistics 0 0 /\
  trace w' = trace w ++ [ev_net_stats_reset].
Proof. repeat split. Qed.

(** X2: a sample right after a sample, with no traffic in between,
    reports a rate of zero in both directions. *)
Lemma update_stats_twice (w : world) :
  let w'' := user_manager_update_stats (user_manager_update_stats w) in
  net_tx (stats (hub w'')) = 0 /\ net_rx (stats (hub w'')) = 0.
Proof.
  cbn zeta. unfold user_manager_update_stats at 1 3.
  cbn [net_stats_get net_stats_reset with_stats emit hub stats
       set_net_tx set_net_rx set_net_tx_peak set_net_tx_total set_net_rx_total
       net_tx net_rx].
  change (net_intermediate (user_manager_update_stats w))
    with (mk_net_statistics 0 0).
  cbn [tx rx]. split; reflexivity.
Qed.

(** C6: [user_manager_update_stats] never writes [net_rx_peak]; what it
    leaves in [net_tx_peak] is the larger of the new receive rate and the
    old receive peak (the second of its two assignments to that field). *)
Theorem update_stats_keeps_rx_peak (w : world) :
  let s := stats (hub w) in
  let s' := stats (hub (user_manager_update_stats w)) in
  net_rx_peak s' = net_rx_peak s /\
  net_rx s' = Z.quot (rx (net_intermediate w)) TIMEOUT_STATS /\
  net_tx_peak s' = Z.max (net_rx s') (net_rx_peak s).
Proof.
  intros s s'. unfold s', s, user_manager_update_stats.
  cbn [net_stats_get net_stats_reset with_stats emit hub stats
       set_net_tx set_net_rx set_net_tx_peak set_net_tx_total set_net_rx_total
       net_tx net_rx net_tx_peak net_rx_peak].
  rewrite MAX_max. repeat split.
Qed.

End Stats.

Section StatsExamples.
#[local] Existing Instance uhub_lp64.

(** C2, at the specification's example: the rates are 1024 and 204, and
    the sample leaves 204, not the larger of the old peak and the new
    transmit rate, in [net_tx_peak], and 0, not the larger of the old peak
    and the new receive rate, in [net_rx_peak]. *)
Lemma update_stats_peaks_at_example :
  let s' := stats (hub (user_manager_update_stats sampling_example)) in
  net_tx s' = 1024 /\ net_rx s' = 204 /\
  net_tx_peak s' = 204 /\ net_rx_peak s' = 0 /\
  net_tx_peak s' <> Z.max (net_tx_peak (stats (hub sampling_example))) (net_tx s') /\
  net_rx_peak s' <> Z.max (net_rx_peak (stats (hub sampling_example))) (net_rx s').
Proof. repeat split; vm_compute; discriminate. Qed.

End StatsExamples.

(* ================================================================== *)
(** * The quit notice                                                  *)
(* ================================================================== *)

Section Quit.
Context {platform : Platform}.

Lemma is_forced_quit_spec (r : user_quit_reason) :
  is_forced_quit r = true <-> r = quit_banned \/ r = quit_kicked.
Proof.
  unfold is_forced_quit.
  destruct r; cbn; split; intros H; auto;
    try discriminate; destruct H; discriminate.
Qed.

(** C7: [send_quit_message] builds one message whose first argument is the
    leaving session's identifier, followed by the forced-disconnect flag if
    and only if the quit reason is banned or kicked; the message goes once
    through [route_to_all] and is released after that. *)
Theorem quit_message_flag (leaving : ptr) (w : world) :
  let u := mem w leaving in
  let w' := send_quit_message leaving w in
  exists command,
    trace w' = trace w ++ [ev_route_to_all command; ev_adc_msg_free command] /\
    cmd command = ADC_CMD_IQUI /\
    args command =
      sid_to_string (id_sid u)
        :: (if is_forced_quit (quit_reason u)
            then [ADC_QUI_FLAG_DISCONNECT] else []) /\
    (tl (args command) = [ADC_QUI_FLAG_DISCONNECT] <->
     quit_reason u = quit_banned \/ quit_reason u = quit_kicked) /\
    mem w' = mem w /\ hub w' = hub w.
Proof.
  intros u w'. unfold w', send_quit_message. fold u.
  set (command :=
         if is_forced_quit (quit_reason u)
         then adc_msg_add_argument
                (adc_msg_add_argument (adc_msg_construct ADC_CMD_IQUI 6)
                   (sid_to_string (id_sid u))) ADC_QUI_FLAG_DISCONNECT
         else adc_msg_add_argument (adc_msg_construct ADC_CMD_IQUI 6)
                (sid_to_string (id_sid u))).
  exists command. rewrite <- is_forced_quit_spec.
  unfold adc_msg_free, route_to_all, emit. cbn [trace mem hub].
  rewrite <- app_assoc.
  subst command. destruct (is_forced_quit (quit_reason u)); cbn;
    repeat split; intros; try reflexivity; discriminate.
Qed.

End Quit.

Section QuitExamples.
#[local] Existing Instance uhub_lp64.

(** A session that leaves on its own is announced without the flag. *)
Lemma quit_normal_has_no_flag :
  trace (send_quit_message 1%positive fresh_lp64) =
  trace fresh_lp64 ++
    [ev_route_to_all (mk_adc_message ADC_CMD_IQUI ["B"%string]);
     ev_adc_msg_free (mk_adc_message ADC_CMD_IQUI ["B"%string])].
Proof. reflexivity. Qed.

End QuitExamples.

(* ================================================================== *)
(** * Shutdown                                                         *)
(* ================================================================== *)

Section Shutdown.
Context {platform : Platform}.

Lemma destroy_calls_app (u : ptr) (s t : list event) :
  destroy_calls u (s ++ t) = (destroy_calls u s + destroy_calls u t)%nat.
Proof. unfold destroy_calls. now rewrite filter_app, length_app. Qed.

Lemma destroy_calls_sessions (u : ptr) (c : user_credentials) (l : list ptr) :
  destroy_calls u (map (fun v => ev_user_destroy v c) l) =
  count_occ Pos.eq_dec l u.
Proof.
  unfold destroy_calls. induction l as [|v l IH]; [reflexivity|].
  cbn [map filter count_occ].
  destruct (Pos.eqb_spec v u) as [Heq|Hne]; destruct (Pos.eq_dec v u) as [E|E];
    try congruence; cbn [length]; now rewrite IH.
Qed.

(** What the callback does to one session. *)
Lemma clear_callback_effect (u : ptr) (w : world) :
  let w' := clear_user_list_callback (Some u) w in
  trace w' = trace w ++ [ev_user_destroy u cred_none] /\
  hub w' = hub w /\
  credentials (mem w' u) = cred_none /\
  (forall v, v <> u -> mem w' v = mem w v) /\
  (forall v, credentials (mem w v) = cred_none ->
             credentials (mem w' v) = cred_none).
Proof.
  cbn -[Pos.eqb]. rewrite Pos.eqb_refl. repeat split.
  - intros v Hv. now destruct (Pos.eqb_spec v u).
  - intros v Hv. now destruct (Pos.eqb_spec v u).
Qed.

(** The callback over the whole list, first to last. *)
Lemma clear_all_effect (l : list ptr) (w : world) :
  let w' := fold_left (fun w p => clear_user_list_callback (Some p) w) l w in
  trace w' = trace w ++ map (fun u => ev_user_destroy u cred_none) l /\
  hub w' = hub w /\
  (forall u, In u l -> credentials (mem w' u) = cred_none) /\
  (forall u, ~ In u l -> mem w' u = mem w u) /\
  (forall v, credentials (mem w v) = cred_none ->
             credentials (mem w' v) = cred_none).
Proof.
  revert w. induction l as [|p l IH]; intros w; cbn zeta.
  - cbn [fold_left map In]. rewrite app_nil_r.
    repeat split; [contradiction|trivial].
  - cbn [fold_left map].
    destruct (clear_callback_effect p w) as (Ht & Hh & Hc & Hm & Hk).
    destruct (IH (clear_user_list_callback (Some p) w))
      as (Ht' & Hh' & Hc' & Hm' & Hk').
    cbn zeta in *. repeat split.
    + rewrite Ht', Ht, <- app_assoc. reflexivity.
    + now rewrite Hh'.
    + intros u [->|Hin].
      * now apply Hk'.
      * now apply Hc'.
    + intros u Hu. rewrite Hm' by (intros Hin; apply Hu; now right).
      apply Hm. intros ->. apply Hu. now left.
    + intros v Hv. now apply Hk', Hk.
Qed.

(** C8: [user_manager_shutdown] cancels the timer first; then, for the
    registered sessions in order, it sets the credentials to [cred_none]
    and hands the session to [user_destroy], once per registration, the
    credentials being [cred_none] at that call; after that the list is
    empty and it is released, and so is the registry. *)
Theorem shutdown_destroys_every_session (w : world) :
  let registered := users_list (users (hub w)) in
  let w' := user_manager_shutdown w in
  trace w' =
    trace w ++ [ev_event_del]
      ++ map (fun u => ev_user_destroy u cred_none) registered
      ++ [ev_list_destroy; ev_hub_free] /\
  users_list (users (hub w')) = [] /\
  (forall u, In u registered -> credentials (mem w' u) = cred_none) /\
  (forall u, ~ In u registered -> mem w' u = mem w u) /\
  (forall u, destroy_calls u (trace w') =
             (destroy_calls u (trace w) + count_occ Pos.eq_dec registered u)%nat).
Proof.
  intros registered w'.
  destruct (clear_all_effect registered (emit ev_event_del w))
    as (Ht & Hh & Hc & Hm & _). cbn zeta in *.
  assert (Htrace : trace w' =
    trace w ++ [ev_event_del]
      ++ map (fun u => ev_user_destroy u cred_none) registered
      ++ [ev_list_destroy; ev_hub_free]).
  { unfold w', user_manager_shutdown, hub_free, list_destroy, list_clear,
      event_del.
    fold registered. cbn [emit trace with_users mem hub].
    rewrite Ht. cbn [emit trace]. rewrite <- !app_assoc. reflexivity. }
  split; [exact Htrace|]. repeat split.
  - exact Hc.
  - exact Hm.
  - intros u. rewrite Htrace, !destroy_calls_app, destroy_calls_sessions.
    cbn. lia.
Qed.

End Shutdown.

Section ShutdownExamples.
#[local] Existing Instance uhub_lp64.

(** After three sessions were added, shutdown destroys each of them once,
    with credentials [cred_none], and leaves no session registered. *)
Lemma shutdown_of_three :
  trace (user_manager_shutdown three_registered) =
    trace three_registered
      ++ [ev_event_del;
          ev_user_destroy 1%positive cred_none;
          ev_user_destroy 2%positive cred_none;
          ev_user_destroy 3%positive cred_none;
          ev_list_destroy; ev_hub_free] /\
  users_list (users (hub (user_manager_shutdown three_registered))) = [].
Proof. split; reflexivity. Qed.

End ShutdownExamples.

(* ================================================================== *)
(** * The session list                                                 *)
(* ================================================================== *)

Section SessionList.
Context {platform : Platform} {routing : Routing}.

Lemma kept_refl (m : ptr -> user) : kept m m.
Proof. intros q. split; reflexivity. Qed.

Lemma kept_trans (m1 m2 m3 : ptr -> user) :
  kept m1 m2 -> kept m2 m3 -> kept m1 m3.
Proof.
  intros H12 H23 q.
  destruct (H12 q) as (A1 & A2), (H23 q) as (B1 & B2).
  split; congruence.
Qed.

Lemma route_to_user_effect (target : ptr) (msg : adc_message) (w : world) :
  let r := fst (route_to_user target msg w) in
  let w' := snd (route_to_user target msg w) in
  trace w' = trace w ++ [ev_route_to_user target msg r] /\
  hub w' = hub w /\
  kept (mem w) (mem w') /\
  (forall q, flags (mem w' q) = flags (mem w q)).
Proof.
  unfold route_to_user.
  destruct (route_outcome w target msg) as [ret queued].
  cbn -[Pos.eqb]. repeat split; try intros q;
    destruct (Pos.eqb_spec q target) as [->|_]; reflexivity.
Qed.

Lemma user_flag_set_effect (p : ptr) (flag : Z) (w : world) :
  let w' := user_flag_set p flag w in
  trace w' = trace w /\ hub w' = hub w /\ kept (mem w) (mem w') /\
  flags (mem w' p) = Z.lor (flags (mem w p)) flag /\
  send_queue_size (mem w' p) = send_queue_size (mem w p).
Proof.
  cbn -[Pos.eqb Z.lor Z.land Z.lnot]. rewrite Pos.eqb_refl.
  repeat split; try reflexivity;
    destruct (Pos.eqb_spec q p) as [->|_]; reflexivity.
Qed.

Lemma user_flag_unset_effect (p : ptr) (flag : Z) (w : world) :
  let w' := user_flag_unset p flag w in
  trace w' = trace w /\ hub w' = hub w /\ kept (mem w) (mem w') /\
  flags (mem w' p) = Z.land (flags (mem w p)) (Z.lnot flag) /\
  send_queue_size (mem w' p) = send_queue_size (mem w p).
Proof.
  cbn -[Pos.eqb Z.lor Z.land Z.lnot]. rewrite Pos.eqb_refl.
  repeat split; try reflexivity;
    destruct (Pos.eqb_spec q p) as [->|_]; reflexivity.
Qed.

Lemma last_cons (r : Z) (rs : list Z) (d : Z) : last (r :: rs) d = last rs r.
Proof.
  revert r d. induction rs as [|x rs IH]; intros r d; [reflexivity|].
  change (last (r :: x :: rs) d) with (last (x :: rs) d).
  rewrite !IH. reflexivity.
Qed.

Lemma filter_kept (m m' : ptr -> user) (l : list ptr) :
  kept m m' ->
  filter (fun u => user_is_logged_in (m' u)) l =
  filter (fun u => user_is_logged_in (m u)) l.
Proof.
  intros Hk. apply filter_ext. intros u. unfold user_is_logged_in.
  apply (Hk u).
Qed.

Lemma deliveries_kept (target : ptr) (m m' : ptr -> user)
    (sent : list (ptr * Z)) :
  kept m m' -> deliveries target m' sent = deliveries target m sent.
Proof.
  intros Hk. unfold deliveries. apply map_ext. intros [u r]. cbn [fst snd].
  f_equal. apply (Hk u).
Qed.

(** The loop: one delivery per logged-in session of [l], in order, up to
    and including the first one that fails. *)
Lemma send_user_list_loop_effect (target : ptr) (l : list ptr) (ret : Z)
    (w : world) :
  let ret' := fst (send_user_list_loop target l ret w) in
  let w' := snd (send_user_list_loop target l ret w) in
  let todo := filter (fun u => user_is_logged_in (mem w u)) l in
  hub w' = hub w /\
  kept (mem w) (mem w') /\
  (forall q, flags (mem w' q) = flags (mem w q)) /\
  exists rs : list Z,
    trace w' = trace w ++ deliveries target (mem w) (combine todo rs) /\
    (length rs <= length todo)%nat /\
    Forall (fun r => r <> 0) (removelast rs) /\
    ret' = last rs ret /\
    (last rs 1 = 0 \/ length rs = length todo).
Proof.
  revert ret w. induction l as [|user rest IH]; intros ret w; cbn zeta.
  - cbn [send_user_list_loop filter fst snd].
    split; [reflexivity|]. split; [apply kept_refl|]. split; [reflexivity|].
    exists []. cbn. rewrite app_nil_r. repeat split; auto.
  - cbn [send_user_list_loop filter].
    destruct (user_is_logged_in (mem w user)) eqn:Hlogged.
    + destruct (route_to_user_effect target (info (mem w user)) w)
        as (Ht & Hh & Hk & Hf). cbn zeta in Ht, Hh, Hk, Hf.
      destruct (route_to_user target (info (mem w user)) w) as [r w1].
      cbn [fst snd] in Ht, Hh, Hk, Hf.
      destruct (Z.eqb_spec r 0) as [->|Hr].
      * cbn [fst snd]. do 3 (split; [assumption|]).
        exists [0]. cbn [combine deliveries map fst snd length removelast last].
        rewrite combine_nil. repeat split; auto. lia.
      * destruct (IH r w1)
          as (Hh' & Hk' & Hf' & rs & Ht' & Hlen & Hok & Hret & Hall).
        cbn zeta in *. rewrite (filter_kept _ _ rest Hk) in *.
        split; [congruence|]. split; [eapply kept_trans; eassumption|].
        split; [intros q; now rewrite Hf', Hf|].
        exists (r :: rs). cbn [combine length].
        rewrite last_cons. repeat split.
        -- rewrite Ht', Ht, (deliveries_kept _ _ _ _ Hk), <- app_assoc.
           reflexivity.
        -- lia.
        -- destruct rs as [|x rs]; [constructor|].
           change (removelast (r :: x :: rs)) with (r :: removelast (x :: rs)).
           now constructor.
        -- exact Hret.
        -- destruct rs as [|x rs].
           ++ cbn [last length] in *. right. destruct Hall as [|Hall]; lia.
           ++ rewrite last_cons in Hall. rewrite !last_cons.
              destruct Hall as [Hall|Hall]; [now left|right; lia].
    + apply IH.
Qed.

Lemma flag_marked (f flag : Z) : Z.land (Z.lor f flag) flag = flag.
Proof.
  apply Z.bits_inj'. intros n _.
  rewrite Z.land_spec, Z.lor_spec.
  destruct (Z.testbit f n), (Z.testbit flag n); reflexivity.
Qed.

Lemma flag_cleared (f flag : Z) : Z.land (Z.land f (Z.lnot flag)) flag = 0.
Proof.
  apply Z.bits_inj'. intros n Hn.
  rewrite !Z.land_spec, Z.lnot_spec, Z.bits_0 by assumption.
  destruct (Z.testbit f n), (Z.testbit flag n); reflexivity.
Qed.

(** C5: [send_user_list] hands [route_to_user] the identity payload of the
    logged-in registered sessions, one delivery each, in list order, up to
    and including the first delivery that returns zero; it returns the
    value of its last delivery, and 1 when there was none.  So a returned
    zero is that of the failed delivery, at which the deliveries end, and
    on any other value every logged-in session had its delivery. *)
Theorem send_user_list_deliveries (target : ptr) (w : world) :
  let ret := fst (send_user_list target w) in
  let w' := snd (send_user_list target w) in
  exists rs : list Z,
    trace w' =
      trace w ++ deliveries target (mem w) (combine (logged_in_users w) rs) /\
    (length rs <= length (logged_in_users w))%nat /\
    Forall (fun r => r <> 0) (removelast rs) /\
    ret = last rs 1 /\
    (ret = 0 \/ length rs = length (logged_in_users w)) /\
    (logged_in_users w = [] -> ret = 1 /\ trace w' = trace w).
Proof.
  intros ret w'. unfold ret, w', send_user_list, logged_in_users.
  destruct (user_flag_set_effect target flag_user_list w)
    as (Ht0 & Hh0 & Hk0 & _). cbn zeta in *.
  set (w0 := user_flag_set target flag_user_list w) in *.
  destruct (send_user_list_loop_effect target (users_list (users (hub w0))) 1 w0)
    as (Hh1 & Hk1 & _ & rs & Ht1 & Hlen & Hok & Hret & Hall).
  cbn zeta in *.
  destruct (send_user_list_loop target (users_list (users (hub w0))) 1 w0)
    as [r w1]. cbn [fst snd] in *.
  rewrite (filter_kept _ _ _ Hk0), (deliveries_kept _ _ _ _ Hk0), Hh0, Ht0 in *.
  assert (Hfinal : trace (if send_queue_size (mem w1 target) =? 0
                          then user_flag_unset target flag_user_list w1
                          else w1) = trace w1).
  { destruct (send_queue_size (mem w1 target) =? 0); reflexivity. }
  exists rs. rewrite Hfinal. do 5 (split; [try assumption|]).
  - rewrite <- Hret in Hall. exact Hall.
  - intros Hnone. rewrite Hnone in Hlen, Ht1.
    destruct rs; [|cbn in Hlen; lia].
    cbn in Ht1. rewrite app_nil_r in Ht1. now split.
Qed.

(** Two deliveries to a marked target go the same way under two routing
    layers that answer alike for marked targets. *)
Lemma route_to_user_marked (other : Routing) (target : ptr)
    (msg : adc_message) (v : world) :
  (forall v' msg',
     Z.land (flags (mem v' target)) flag_user_list = flag_user_list ->
     route_outcome (Routing := other) v' target msg' =
     route_outcome (Routing := routing) v' target msg') ->
  Z.land (flags (mem v target)) flag_user_list = flag_user_list ->
  route_to_user (H := other) target msg v =
  route_to_user (H := routing) target msg v.
Proof.
  intros Hagree Hmarked. unfold route_to_user.
  now rewrite (Hagree v msg Hmarked).
Qed.

Lemma send_user_list_loop_marked (other : Routing) (target : ptr)
    (l : list ptr) (ret : Z) (v : world) :
  (forall v' msg',
     Z.land (flags (mem v' target)) flag_user_list = flag_user_list ->
     route_outcome (Routing := other) v' target msg' =
     route_outcome (Routing := routing) v' target msg') ->
  Z.land (flags (mem v target)) flag_user_list = flag_user_list ->
  send_user_list_loop (routing := other) target l ret v =
  send_user_list_loop (routing := routing) target l ret v.
Proof.
  intros Hagree. revert ret v.
  induction l as [|user rest IH]; intros ret v Hmarked; [reflexivity|].
  cbn [send_user_list_loop].
  destruct (user_is_logged_in (mem v user)); [|now apply IH].
  rewrite (route_to_user_marked other target _ v Hagree Hmarked).
  destruct (route_to_user_effect target (info (mem v user)) v)
    as (_ & _ & _ & Hf). cbn zeta in Hf.
  destruct (route_to_user (H := routing) target (info (mem v user)) v)
    as [r v1].
  cbn [snd] in Hf.
  destruct (r =? 0); [reflexivity|].
  apply IH. now rewrite Hf.
Qed.

(** C10: [send_user_list] marks the target with [flag_user_list] at the
    start, before any delivery: the routing layer is only ever asked about
    a marked target, so two routing layers that answer alike for marked
    targets give the same run, whatever they answer for unmarked ones.
    After the loop, whether it completed or stopped early, it takes the
    mark away exactly when the target's send queue size is zero; otherwise
    the mark stays. *)
Theorem send_user_list_flag (target : ptr) (w : world) :
  let w' := snd (send_user_list target w) in
  let marked := Z.lor (flags (mem w target)) flag_user_list in
  flags (mem w' target) =
    (if send_queue_size (mem w' target) =? 0
     then Z.land marked (Z.lnot flag_user_list)
     else marked) /\
  Z.land marked flag_user_list = flag_user_list /\
  Z.land (Z.land marked (Z.lnot flag_user_list)) flag_user_list = 0 /\
  (forall other : Routing,
     (forall v msg,
        Z.land (flags (mem v target)) flag_user_list = flag_user_list ->
        route_outcome (Routing := other) v target msg =
        route_outcome (Routing := routing) v target msg) ->
     send_user_list (routing := other) target w =
     send_user_list (routing := routing) target w).
Proof.
  intros w' marked.
  split; [|split; [apply flag_marked|split; [apply flag_cleared|]]].
  - unfold w', send_user_list.
    destruct (user_flag_set_effect target flag_user_list w)
      as (_ & _ & _ & Hf0 & _). cbn zeta in Hf0. fold marked in Hf0.
    set (w0 := user_flag_set target flag_user_list w) in *.
    destruct (send_user_list_loop_effect target (users_list (users (hub w0))) 1 w0)
      as (_ & _ & Hf1 & _). cbn zeta in Hf1.
    destruct (send_user_list_loop target (users_list (users (hub w0))) 1 w0)
      as [r w1]. cbn [fst snd] in *.
    specialize (Hf1 target). rewrite Hf0 in Hf1.
    destruct (send_queue_size (mem w1 target) =? 0) eqn:Hq.
    + destruct (user_flag_unset_effect target flag_user_list w1)
        as (_ & _ & _ & Hf2 & Hq2). cbn zeta in Hf2, Hq2.
      rewrite Hq2, Hq, Hf2, Hf1. reflexivity.
    + rewrite Hq. exact Hf1.
  - intros other Hagree. unfold send_user_list.
    rewrite (send_user_list_loop_marked other target _ 1 _ Hagree);
      [reflexivity|].
    destruct (user_flag_set_effect target flag_user_list w)
      as (_ & _ & _ & Hf0 & _). cbn zeta in Hf0.
    rewrite Hf0. apply flag_marked.
Qed.

End SessionList.

Section SessionListExamples.
#[local] Existing Instance uhub_lp64.

(** With nothing in the way, session 4 receives the payloads of sessions
    1, 3 and 4 (session 2 is not logged in), and the mark is taken away. *)
Lemma send_user_list_to_all :
  fst (send_user_list (routing := delivers_all) 4%positive small_hub) = 1 /\
  trace (snd (send_user_list (routing := delivers_all) 4%positive small_hub)) =
    [ev_route_to_user 4%positive (info (member 1%positive)) 1;
     ev_route_to_user 4%positive (info (member 3%positive)) 1;
     ev_route_to_user 4%positive (info (member 4%positive)) 1] /\
  flags (mem (snd (send_user_list (routing := delivers_all) 4%positive small_hub))
           4%positive) = 0.
Proof. repeat split. Qed.

(** When the second delivery fails, nothing is delivered after it, zero is
    returned, and with 512 bytes still queued the mark stays. *)
Lemma send_user_list_stops :
  fst (send_user_list (routing := full_after_one) 4%positive small_hub) = 0 /\
  trace (snd (send_user_list (routing := full_after_one) 4%positive small_hub)) =
    [ev_route_to_user 4%positive (info (member 1%positive)) 1;
     ev_route_to_user 4%positive (info (member 3%positive)) 0] /\
  flags (mem (snd (send_user_list (routing := full_after_one) 4%positive small_hub))
           4%positive) = flag_user_list.
Proof. repeat split. Qed.

(** A routing layer that refuses unmarked targets is as good as one that
    delivers everything: session 4 is marked before the first delivery. *)
Lemma send_user_list_flag_witness :
  send_user_list (routing := refuses_unmarked) 4%positive small_hub =
  send_user_list (routing := delivers_all) 4%positive small_hub.
Proof.
  destruct (send_user_list_flag (routing := delivers_all) 4%positive small_hub)
    as (_ & _ & _ & Hsame).
  apply Hsame. intros v msg Hmarked.
  cbn [route_outcome refuses_unmarked delivers_all].
  change (flag_user_list (Platform := uhub_lp64)) with 4 in *.
  now rewrite Hmarked.
Defined.

End SessionListExamples.

(* ================================================================== *)
(** * More on the registry                                             *)
(* ================================================================== *)

Section RegistryMore.
Context {platform : Platform}.

(** X3: [user_manager_init] returns -1 exactly when [list_create] gave no
    list; then it installs no registry and does not arm the timer.
    Otherwise it returns 0, installs the fresh registry over whatever was
    there and arms the timer for [TIMEOUT_STATS].  Either way the user
    objects and the statistics are left alone. *)
Theorem init_outcome (list_created : bool) (w : world) :
  let r := fst (user_manager_init list_created w) in
  let w' := snd (user_manager_init list_created w) in
  (r = -1 <-> list_created = false) /\
  (r = 0 <-> list_created = true) /\
  mem w' = mem w /\ stats (hub w') = stats (hub w) /\
  (list_created = false ->
     users (hub w') = users (hub w) /\
     trace w' = trace w ++ [ev_list_destroy]) /\
  (list_created = true ->
     users (hub w') = fresh_user_manager /\
     trace w' = trace w ++ [ev_evtimer_set; ev_evtimer_add TIMEOUT_STATS]).
Proof.
  destruct list_created; cbn -[Z.opp];
    repeat split; try discriminate; try reflexivity.
  now rewrite <- app_assoc.
Qed.

Lemma run_op_frame (o : registry_op) (w : world) :
  mem (run_op w o) = mem w /\
  stats (hub (run_op w o)) = stats (hub w) /\
  net_intermediate (run_op w o) = net_intermediate w /\
  net_total (run_op w o) = net_total w /\
  trace (run_op w o) = trace w /\
  free_sid (users (hub (run_op w o))) = free_sid (users (hub w)).
Proof. destruct o; repeat split. Qed.

(** X4: [user_manager_add] and [user_manager_remove], in any number and
    order, change the registry's list, count, peak and totals only: the
    user objects, the statistics, the collector's counters, the next
    session identifier and the trace (no call to any collaborator but the
    list) stay as they were. *)
Theorem run_ops_frame (ops : list registry_op) (w : world) :
  mem (run_ops w ops) = mem w /\
  stats (hub (run_ops w ops)) = stats (hub w) /\
  net_intermediate (run_ops w ops) = net_intermediate w /\
  net_total (run_ops w ops) = net_total w /\
  trace (run_ops w ops) = trace w /\
  free_sid (users (hub (run_ops w ops))) = free_sid (users (hub w)).
Proof.
  revert w. induction ops as [|o ops IH]; intros w; [repeat split|].
  cbn [run_ops fold_left]. fold (run_ops (run_op w o) ops).
  destruct (IH (run_op w o)) as (H1 & H2 & H3 & H4 & H5 & H6).
  destruct (run_op_frame o w) as (F1 & F2 & F3 & F4 & F5 & F6).
  repeat split; congruence.
Qed.

(** X5: [count_peak] never goes down, whatever calls of
    [user_manager_add] and [user_manager_remove] are made and from
    whatever state, also when a removed session was not registered. *)
Theorem count_peak_never_decreases (ops : list registry_op) (w : world) :
  count_peak (users (hub w)) <= count_peak (users (hub (run_ops w ops))).
Proof.
  revert w. induction ops as [|o ops IH]; intros w; [cbn; lia|].
  cbn [run_ops fold_left]. fold (run_ops (run_op w o) ops).
  specialize (IH (run_op w o)).
  assert (count_peak (users (hub w)) <= count_peak (users (hub (run_op w o)))).
  { destruct o; registry_step; [rewrite MAX_max|]; lia. }
  lia.
Qed.

(** X6: in a state reached from a fresh registry by adds and removes of
    registered sessions, adding a session that is not registered and
    removing it again gives back the list, the count and both totals; the
    peak is the only trace the visit leaves. *)
Theorem add_remove_round_trip (w : world) (ops : list registry_op) (p : ptr) :
  let w1 := run_ops (snd (user_manager_init true w)) ops in
  let w2 := user_manager_remove p (user_manager_add p w1) in
  ops_valid (snd (user_manager_init true w)) ops ->
  ~ In p (users_list (users (hub w1))) ->
  users_list (users (hub w2)) = users_list (users (hub w1)) /\
  count (users (hub w2)) = count (users (hub w1)) /\
  shared_size (users (hub w2)) = shared_size (users (hub w1)) /\
  shared_files (users (hub w2)) = shared_files (users (hub w1)) /\
  count_peak (users (hub w2)) =
    Z.max (wrap size_bits (count (users (hub w1)) + 1))
      (count_peak (users (hub w1))).
Proof.
  intros w1 w2 Hvalid Hp.
  destruct (run_ops_inv ops _ (fresh_inv w) Hvalid)
    as [(Hc & Hs & Hf & _ & _) _]. fold w1 in Hc, Hs, Hf.
  unfold w2. registry_step.
  rewrite list_remove_appended by assumption.
  rewrite !wrap_sub_l, MAX_max.
  replace (count (users (hub w1)) + 1 - 1) with (count (users (hub w1))) by lia.
  replace (shared_size (users (hub w1)) + limits_shared_size (mem w1 p)
           - limits_shared_size (mem w1 p))
    with (shared_size (users (hub w1))) by lia.
  replace (shared_files (users (hub w1)) + limits_shared_files (mem w1 p)
           - limits_shared_files (mem w1 p))
    with (shared_files (users (hub w1))) by lia.
  repeat split.
  - rewrite Hc at 2. rewrite Hc. unfold wrap. apply Z.mod_mod.
    pose proof (modulus_pos size_bits). lia.
  - rewrite Hs at 2. rewrite Hs. unfold wrap. apply Z.mod_mod.
    pose proof (modulus_pos share_bits). lia.
  - rewrite Hf at 2. rewrite Hf. unfold wrap. apply Z.mod_mod.
    pose proof (modulus_pos share_bits). lia.
Qed.

(** X7: the precondition of [user_manager_remove] matters.  In a state
    reached from a fresh registry by adds and removes of registered
    sessions, with fewer sessions than [size_t] can count, one removal of
    a session that is not registered leaves [count] different from the
    number of registered sessions. *)
Theorem remove_absent_breaks_count (w : world) (ops : list registry_op)
    (p : ptr) :
  let w1 := run_ops (snd (user_manager_init true w)) ops in
  let w2 := user_manager_remove p w1 in
  ops_valid (snd (user_manager_init true w)) ops ->
  ~ In p (users_list (users (hub w1))) ->
  (0 < size_bits)%N ->
  Z.of_nat (length (users_list (users (hub w1)))) < 2 ^ Z.of_N size_bits ->
  count (users (hub w2)) <> Z.of_nat (length (users_list (users (hub w2)))).
Proof.
  intros w1 w2 Hvalid Hp Hbits Hfew.
  destruct (run_ops_inv ops _ (fresh_inv w) Hvalid) as [(Hc & _) _].
  fold w1 in Hc.
  rewrite wrap_small in Hc by lia.
  assert (Hrange : 0 <= count (users (hub w1)) < 2 ^ Z.of_N size_bits) by lia.
  pose proof (remove_changes_count p w1 Hbits Hrange) as Hne.
  fold w2 in Hne.
  assert (Hl : users_list (users (hub w2)) = users_list (users (hub w1))).
  { unfold w2. registry_step. now apply list_remove_absent. }
  rewrite Hl, <- Hc. exact Hne.
Qed.

End RegistryMore.

Section RegistryMoreExamples.
#[local] Existing Instance uhub_lp64.

Lemma add_remove_round_trip_witness :
  users_list (users (hub (user_manager_remove 1%positive
                            (user_manager_add 1%positive one_registered))))
    = [2%positive] /\
  count (users (hub (user_manager_remove 1%positive
                       (user_manager_add 1%positive one_registered)))) = 1.
Proof.
  destruct (add_remove_round_trip (blank_world (sharing_user 7 4096 3))
              [op_add 2%positive] 1%positive) as (Hl & Hc & _).
  - cbn. tauto.
  - cbn. intros [H|[]]. discriminate H.
  - split; [exact Hl|exact Hc].
Defined.

Lemma remove_absent_breaks_count_witness :
  users_list (users (hub (user_manager_remove 1%positive one_registered)))
    = [2%positive] /\
  count (users (hub (user_manager_remove 1%positive one_registered))) <> 1.
Proof.
  split; [reflexivity|].
  apply (remove_absent_breaks_count (blank_world (sharing_user 7 4096 3))
           [op_add 2%positive] 1%positive).
  - cbn. tauto.
  - cbn. intros [H|[]]. discriminate H.
  - reflexivity.
  - cbn. lia.
Defined.

End RegistryMoreExamples.

(* ================================================================== *)
(** * More on the lookups                                              *)
(* ================================================================== *)

Section LookupsMore.
Context {platform : Platform}.

Lemma first_user_registered (test : user -> bool) (m : ptr -> user)
    (l : list ptr) (q : ptr) :
  first_user test m l = Some q -> In q l /\ test (m q) = true.
Proof.
  intros Hq.
  destruct (first_user_earliest _ _ _ _ Hq) as (before & after & -> & Ht & _).
  split; [|exact Ht]. apply in_or_app. right. now left.
Qed.

Lemma first_user_after_remove (test : user -> bool) (m : ptr -> user)
    (l : list ptr) (p q : ptr) :
  first_user test m l = Some q -> p <> q ->
  first_user test m (list_remove l p) = Some q.
Proof.
  induction l as [|x l IH]; cbn [first_user list_remove]; [discriminate|].
  intros Hq Hne.
  destruct (test (m x)) eqn:Ht.
  - injection Hq as ->. destruct (Pos.eqb_spec q p) as [E|_]; [congruence|].
    cbn [first_user]. now rewrite Ht.
  - destruct (Pos.eqb_spec x p) as [_|_]; [exact Hq|].
    cbn [first_user]. rewrite Ht. now apply IH.
Qed.

Lemma first_user_misses (test : user -> bool) (m : ptr -> user) (l : list ptr) :
  first_user test m l = None <-> (forall q, In q l -> test (m q) = false).
Proof. rewrite first_user_none. apply Forall_forall. Qed.

(** X8: each lookup answers not found exactly when no registered session
    carries the key: a registered session is never missed. *)
Theorem lookup_not_found (w : world) :
  (forall sid,
     get_user_by_sid w sid = None <->
     forall q, In q (users_list (users (hub w))) -> id_sid (mem w q) <> sid) /\
  (forall cid,
     get_user_by_cid w cid = None <->
     forall q, In q (users_list (users (hub w))) -> id_cid (mem w q) <> cid) /\
  (forall nick,
     get_user_by_nick w nick = None <->
     forall q, In q (users_list (users (hub w))) -> id_nick (mem w q) <> nick).
Proof.
  unfold get_user_by_sid, get_user_by_cid, get_user_by_nick.
  split; [|split]; intros key; rewrite first_user_misses;
    split; intros H q Hq; specialize (H q Hq).
  - now apply Z.eqb_neq.
  - now apply Z.eqb_neq.
  - now apply String.eqb_neq.
  - now apply String.eqb_neq.
  - now apply String.eqb_neq.
  - now apply String.eqb_neq.
Qed.

Lemma lookup_stable (test : user -> bool) (w : world) (q : ptr) :
  first_user test (mem w) (users_list (users (hub w))) = Some q ->
  In q (users_list (users (hub w))) /\
  (forall p,
     first_user test (mem (user_manager_add p w))
       (users_list (users (hub (user_manager_add p w)))) = Some q) /\
  (forall p, p <> q ->
     first_user test (mem (user_manager_remove p w))
       (users_list (users (hub (user_manager_remove p w)))) = Some q).
Proof.
  intros Hq. split; [apply (first_user_registered _ _ _ _ Hq)|]. split.
  - intros p. registry_step. now rewrite first_user_appended, Hq.
  - intros p Hne. registry_step. now apply first_user_after_remove.
Qed.

(** X9: the session a lookup finds is registered, and the lookup keeps
    finding that same session after any session is added and after any
    other session is removed; so for the lookups by sid, by cid and by
    nick. *)
Theorem found_session_stays_found (w : world) (q : ptr) :
  (forall sid,
     get_user_by_sid w sid = Some q ->
     In q (users_list (users (hub w))) /\
     (forall p, get_user_by_sid (user_manager_add p w) sid = Some q) /\
     (forall p, p <> q ->
        get_user_by_sid (user_manager_remove p w) sid = Some q)) /\
  (forall cid,
     get_user_by_cid w cid = Some q ->
     In q (users_list (users (hub w))) /\
     (forall p, get_user_by_cid (user_manager_add p w) cid = Some q) /\
     (forall p, p <> q ->
        get_user_by_cid (user_manager_remove p w) cid = Some q)) /\
  (forall nick,
     get_user_by_nick w nick = Some q ->
     In q (users_list (users (hub w))) /\
     (forall p, get_user_by_nick (user_manager_add p w) nick = Some q) /\
     (forall p, p <> q ->
        get_user_by_nick (user_manager_remove p w) nick = Some q)).
Proof.
  split; [|split]; intros key Hq;
    exact (lookup_stable _ w q Hq).
Qed.

End LookupsMore.

Section LookupsMoreExamples.
#[local] Existing Instance uhub_lp64.

Lemma found_session_stays_found_witness :
  In 2%positive (users_list (users (hub one_registered))) /\
  get_user_by_sid (user_manager_add 5%positive one_registered) 7
    = Some 2%positive /\
  get_user_by_sid (user_manager_remove 5%positive one_registered) 7
    = Some 2%positive.
Proof.
  destruct (proj1 (found_session_stays_found one_registered 2%positive) 7)
    as (Hin & Hadd & Hrem); [reflexivity|].
  split; [exact Hin|]. split; [apply Hadd|apply Hrem; discriminate].
Defined.

End LookupsMoreExamples.

(* ================================================================== *)
(** * What the session list leaves alone                               *)
(* ================================================================== *)

Section SessionListFrame.
Context {platform : Platform} {routing : Routing}.

(** The store after a step that writes the target's flags or queue size
    only. *)
Definition target_only (target : ptr) (m m' : ptr -> user) : Prop :=
  (forall q, q <> target -> m' q = m q) /\
  same_but_flags_and_queue (m target) (m' target).

Lemma target_only_refl (target : ptr) (m : ptr -> user) : target_only target m m.
Proof. split; [reflexivity|]. unfold same_but_flags_and_queue. reflexivity. Qed.

Lemma target_only_trans (target : ptr) (m1 m2 m3 : ptr -> user) :
  target_only target m1 m2 -> target_only target m2 m3 ->
  target_only target m1 m3.
Proof.
  intros [A1 A2] [B1 B2]. split.
  - intros q Hq. now rewrite B1, A1.
  - unfold same_but_flags_and_queue in *. congruence.
Qed.

Lemma store_flags_target_only (target : ptr) (f : Z) (w : world) :
  target_only target (mem w) (mem (store w target (set_flags (mem w target) f))).
Proof.
  split; cbn -[Pos.eqb].
  - intros q Hq. now destruct (Pos.eqb_spec q target).
  - rewrite Pos.eqb_refl. reflexivity.
Qed.

Lemma route_to_user_target_only (target : ptr) (msg : adc_message) (w : world) :
  target_only target (mem w) (mem (snd (route_to_user target msg w))) /\
  net_intermediate (snd (route_to_user target msg w)) = net_intermediate w /\
  net_total (snd (route_to_user target msg w)) = net_total w.
Proof.
  unfold route_to_user.
  destruct (route_outcome w target msg) as [ret queued].
  cbn -[Pos.eqb]. repeat split.
  - intros q Hq. now destruct (Pos.eqb_spec q target).
  - rewrite Pos.eqb_refl. reflexivity.
Qed.

Lemma send_user_list_loop_target_only (target : ptr) (l : list ptr) (ret : Z)
    (w : world) :
  let w' := snd (send_user_list_loop target l ret w) in
  target_only target (mem w) (mem w') /\
  net_intermediate w' = net_intermediate w /\
  net_total w' = net_total w.
Proof.
  revert ret w. induction l as [|user rest IH]; intros ret w; cbn zeta.
  - cbn [send_user_list_loop snd]. split; [apply target_only_refl|now split].
  - cbn [send_user_list_loop].
    destruct (user_is_logged_in (mem w user)); [|apply IH].
    destruct (route_to_user_target_only target (info (mem w user)) w)
      as (Hm & Hi & Ht).
    destruct (route_to_user target (info (mem w user)) w) as [r w1].
    cbn [snd] in Hm, Hi, Ht.
    destruct (r =? 0); [cbn [snd]; split; [exact Hm|split; assumption]|].
    destruct (IH r w1) as (Hm' & Hi' & Ht'). cbn zeta in *.
    split; [eapply target_only_trans; eassumption|split; congruence].
Qed.

(** [send_user_list] writes to the target and to nothing else. *)
Lemma send_user_list_frame (target : ptr) (w : world) :
  let w' := snd (send_user_list target w) in
  hub w' = hub w /\
  net_intermediate w' = net_intermediate w /\
  net_total w' = net_total w /\
  (forall q, q <> target -> mem w' q = mem w q) /\
  same_but_flags_and_queue (mem w target) (mem w' target).
Proof.
  cbn zeta. unfold send_user_list.
  set (w0 := user_flag_set target flag_user_list w).
  assert (H0 : target_only target (mem w) (mem w0))
    by apply store_flags_target_only.
  destruct (send_user_list_loop_effect target (users_list (users (hub w0))) 1 w0)
    as (Hh & _).
  destruct (send_user_list_loop_target_only target
              (users_list (users (hub w0))) 1 w0) as (H1 & Hi & Ht).
  cbn zeta in Hh, H1, Hi, Ht.
  destruct (send_user_list_loop target (users_list (users (hub w0))) 1 w0)
    as [r w1]. cbn [fst snd] in *.
  assert (H2 : target_only target (mem w1)
                 (mem (if send_queue_size (mem w1 target) =? 0
                       then user_flag_unset target flag_user_list w1
                       else w1))).
  { destruct (send_queue_size (mem w1 target) =? 0);
      [apply store_flags_target_only|apply target_only_refl]. }
  pose proof (target_only_trans _ _ _ _ (target_only_trans _ _ _ _ H0 H1) H2)
    as [Hothers Htarget].
  destruct (send_queue_size (mem w1 target) =? 0);
    repeat split; try assumption; cbn [snd]; try congruence.
Qed.

Lemma same_but_flags_and_queue_limits (u u' : user) :
  same_but_flags_and_queue u u' ->
  limits_shared_size u' = limits_shared_size u /\
  limits_shared_files u' = limits_shared_files u.
Proof.
  unfold same_but_flags_and_queue. intros H. split.
  - apply (f_equal limits_shared_size) in H. exact H.
  - apply (f_equal limits_shared_files) in H. exact H.
Qed.

Lemma total_of_same_limits (m m' : ptr -> user) (l : list ptr) :
  same_limits m m' ->
  total_of limits_shared_size m' l = total_of limits_shared_size m l /\
  total_of limits_shared_files m' l = total_of limits_shared_files m l.
Proof.
  intros H. induction l as [|q l [IH1 IH2]]; [split; reflexivity|].
  cbn [total_of fold_right]. fold (total_of limits_shared_size m' l).
  fold (total_of limits_shared_size m l).
  fold (total_of limits_shared_files m' l).
  fold (total_of limits_shared_files m l).
  destruct (H q) as [H1 H2]. split; congruence.
Qed.

(** The invariant looks at the counters of the registry and at the limits
    of the users only. *)
Lemma registry_inv_transfer (w w' : world) :
  users_list (users (hub w')) = users_list (users (hub w)) ->
  count (users (hub w')) = count (users (hub w)) ->
  count_peak (users (hub w')) = count_peak (users (hub w)) ->
  shared_size (users (hub w')) = shared_size (users (hub w)) ->
  shared_files (users (hub w')) = shared_files (users (hub w)) ->
  same_limits (mem w) (mem w') ->
  registry_inv w -> registry_inv w'.
Proof.
  unfold registry_inv. intros Hl Hc Hp Hs Hf Hm H.
  destruct (total_of_same_limits _ _ (users_list (users (hub w))) Hm) as [T1 T2].
  rewrite Hl, Hc, Hp, Hs, Hf, T1, T2. exact H.
Qed.

Lemma same_limits_refl (m : ptr -> user) : same_limits m m.
Proof. intros q. split; reflexivity. Qed.

(** What every operation but add and remove leaves of the registry. *)
Lemma run_hub_op_registry (o : hub_op) (w : world) :
  match o with
  | h_add _ | h_remove _ => True
  | _ =>
      users_list (users (hub (run_hub_op w o))) = users_list (users (hub w)) /\
      count (users (hub (run_hub_op w o))) = count (users (hub w)) /\
      count_peak (users (hub (run_hub_op w o))) = count_peak (users (hub w)) /\
      shared_size (users (hub (run_hub_op w o))) = shared_size (users (hub w)) /\
      shared_files (users (hub (run_hub_op w o))) = shared_files (users (hub w)) /\
      same_limits (mem w) (mem (run_hub_op w o))
  end.
Proof.
  destruct o; try exact I; cbn [run_hub_op];
    try (repeat split; apply same_limits_refl).
  destruct (send_user_list_frame target w)
    as (Hh & _ & _ & Hothers & Htarget). cbn zeta in *.
  rewrite Hh. repeat split.
  - destruct (Pos.eq_dec q target) as [->|Hne].
    + apply (same_but_flags_and_queue_limits _ _ Htarget).
    + now rewrite Hothers.
  - destruct (Pos.eq_dec q target) as [->|Hne].
    + apply (same_but_flags_and_queue_limits _ _ Htarget).
    + now rewrite Hothers.
Qed.

Lemma run_hub_op_inv (o : hub_op) (w : world) :
  registry_inv w ->
  match o with
  | h_remove user => In user (users_list (users (hub w)))
  | _ => True
  end ->
  registry_inv (run_hub_op w o).
Proof.
  intros Hinv Hvalid.
  pose proof (run_hub_op_registry o w) as Hreg.
  destruct o; cbn [run_hub_op] in *;
    try (destruct Hreg as (H1 & H2 & H3 & H4 & H5 & H6);
         now apply (registry_inv_transfer w)).
  - now apply add_inv.
  - now apply remove_inv.
Qed.

Lemma run_hub_ops_inv (ops : list hub_op) (w : world) :
  registry_inv w -> hub_ops_valid w ops -> registry_inv (run_hub_ops w ops).
Proof.
  revert w. induction ops as [|o ops IH]; intros w Hinv Hvalid; [exact Hinv|].
  destruct Hvalid as [Hnow Hrest].
  cbn [run_hub_ops fold_left]. fold (run_hub_ops (run_hub_op w o) ops).
  apply IH; [|exact Hrest]. now apply run_hub_op_inv.
Qed.

Lemma first_user_same_test (test : user -> bool) (m m' : ptr -> user)
    (l : list ptr) :
  (forall q, test (m' q) = test (m q)) ->
  first_user test m' l = first_user test m l.
Proof.
  intros H. induction l as [|x l IH]; [reflexivity|].
  cbn [first_user]. now rewrite H, IH.
Qed.

(** X10: [send_user_list] writes to the target and to nothing else: the
    hub (registry and statistics) and the collector's counters are as
    before, every other user object is as before, and of the target only
    the flags and the send queue size may have changed.  So the three
    lookups answer after it as they did before it. *)
Theorem send_user_list_touches_target_only (target : ptr) (w : world) :
  let w' := snd (send_user_list target w) in
  hub w' = hub w /\
  net_intermediate w' = net_intermediate w /\
  net_total w' = net_total w /\
  (forall q, q <> target -> mem w' q = mem w q) /\
  same_but_flags_and_queue (mem w target) (mem w' target) /\
  (forall sid, get_user_by_sid w' sid = get_user_by_sid w sid) /\
  (forall cid, get_user_by_cid w' cid = get_user_by_cid w cid) /\
  (forall nick, get_user_by_nick w' nick = get_user_by_nick w nick).
Proof.
  destruct (send_user_list_frame target w) as (Hh & Hi & Ht & Hothers & Htarget).
  cbn zeta in *. do 5 (split; [assumption|]).
  assert (Hid : forall q,
            id_sid (mem (snd (send_user_list target w)) q) = id_sid (mem w q) /\
            id_cid (mem (snd (send_user_list target w)) q) = id_cid (mem w q) /\
            id_nick (mem (snd (send_user_list target w)) q) = id_nick (mem w q)).
  { intros q. destruct (Pos.eq_dec q target) as [->|Hne].
    - unfold same_but_flags_and_queue in Htarget.
      repeat split;
        [apply (f_equal id_sid) in Htarget
        |apply (f_equal id_cid) in Htarget
        |apply (f_equal id_nick) in Htarget]; exact Htarget.
    - rewrite Hothers by assumption. repeat split. }
  unfold get_user_by_sid, get_user_by_cid, get_user_by_nick. rewrite Hh.
  repeat split; intros key; apply first_user_same_test; intros q;
    destruct (Hid q) as (H1 & H2 & H3); congruence.
Qed.

(** X11: whatever the event loop calls, and in whatever order (adds,
    removes of registered sessions, session identifiers, session lists,
    quit notices, the network layer counting, timer ticks), the registry's
    aggregates follow the membership list: [count] is its length and the
    totals are the sums of the limits, each in the arithmetic of its
    field, and [count] is at most [count_peak]. *)
Theorem aggregates_survive_any_run (w : world) (ops : list hub_op) :
  let w0 := snd (user_manager_init true w) in
  hub_ops_valid w0 ops ->
  let w' := run_hub_ops w0 ops in
  let um := users (hub w') in
  count um = wrap size_bits (Z.of_nat (length (users_list um))) /\
  shared_size um =
    wrap share_bits (total_of limits_shared_size (mem w') (users_list um)) /\
  shared_files um =
    wrap share_bits (total_of limits_shared_files (mem w') (users_list um)) /\
  count um <= count_peak um.
Proof.
  intros w0 Hvalid w' um.
  destruct (run_hub_ops_inv ops w0 (fresh_inv w) Hvalid)
    as (Hc & Hs & Hf & Hp & _).
  repeat split; try assumption. apply Hp.
Qed.

Lemma run_hub_op_free_sid (o : hub_op) (w : world) :
  is_get_free_sid o = false ->
  free_sid (users (hub (run_hub_op w o))) = free_sid (users (hub w)).
Proof.
  destruct o; cbn [is_get_free_sid run_hub_op]; try discriminate;
    intros _; try reflexivity.
  destruct (send_user_list_frame target w) as (Hh & _). cbn zeta in Hh.
  now rewrite Hh.
Qed.

Lemma sids_given_counts_up (ops : list hub_op) (w : world) (k : nat) :
  let m := length (filter is_get_free_sid ops) in
  (m <> 0%nat -> free_sid (users (hub w)) = Z.of_nat k) ->
  Z.of_nat k + Z.of_nat m <= 2 ^ Z.of_N sid_bits ->
  sids_given w ops = map Z.of_nat (seq k m).
Proof.
  revert w k. induction ops as [|o ops IH]; intros w k; cbn zeta;
    [reflexivity|].
  cbn [filter sids_given].
  destruct (is_get_free_sid o) eqn:Ho.
  - destruct o; try discriminate Ho. cbn [length seq map app run_hub_op].
    intros Hfree Hfit. rewrite get_free_sid_returns, Hfree by discriminate.
    f_equal. apply IH.
    + intros Hm. rewrite get_free_sid_increments, Hfree by discriminate.
      rewrite wrap_small; lia.
    + lia.
  - intros Hfree Hfit.
    replace (match o with h_get_free_sid => [fst (user_manager_get_free_sid w)]
                        | _ => [] end) with (@nil Z)
      by (destruct o; try reflexivity; discriminate Ho).
    cbn [app]. apply IH; [|exact Hfit].
    intros Hm. rewrite run_hub_op_free_sid by exact Ho. now apply Hfree.
Qed.

(** X12: from a fresh registry the session identifiers handed out are 1,
    2, 3, ... in that order whatever else the event loop calls in between
    (removals included), as long as their number is below two to the
    width of [sid_t]: nothing but [user_manager_get_free_sid] moves the
    counter. *)
Theorem sids_count_up_in_any_run (w : world) (ops : list hub_op) :
  let given := length (filter is_get_free_sid ops) in
  Z.of_nat given < 2 ^ Z.of_N sid_bits ->
  sids_given (snd (user_manager_init true w)) ops =
  map Z.of_nat (seq 1 given).
Proof.
  intros given Hfit. apply sids_given_counts_up.
  - intros _. reflexivity.
  - fold given. lia.
Qed.

End SessionListFrame.

Section AnyRunExamples.
#[local] Existing Instance uhub_lp64.
#[local] Existing Instance delivers_all.

Lemma aggregates_survive_any_run_witness :
  count (users (hub (run_hub_ops fresh_lp64 busy_run))) = 1 /\
  count_peak (users (hub (run_hub_ops fresh_lp64 busy_run))) = 2.
Proof.
  unfold fresh_lp64.
  assert (Hvalid : hub_ops_valid
                     (snd (user_manager_init true
                             (blank_world (sharing_user 1 0 0)))) busy_run).
  { cbn. repeat split. now left. }
  destruct (aggregates_survive_any_run (blank_world (sharing_user 1 0 0))
              busy_run Hvalid) as (Hc & _).
  split; [rewrite Hc|]; reflexivity.
Defined.

Lemma sids_count_up_in_any_run_witness :
  sids_given fresh_lp64 busy_run = [1; 2].
Proof.
  apply (sids_count_up_in_any_run (blank_world (sharing_user 1 0 0)) busy_run).
  cbn. lia.
Defined.

End AnyRunExamples.

(* ================================================================== *)
(** * Sampling over time, and the statistics line                      *)
(* ================================================================== *)

Section Sampling.
Context {platform : Platform}.

Lemma run_interval_effect (w : world) (c : net_statistics * net_statistics) :
  let w' := run_interval w c in
  let s' := stats (hub w') in
  net_tx s' = Z.quot (tx (fst c)) TIMEOUT_STATS /\
  net_rx s' = Z.quot (rx (fst c)) TIMEOUT_STATS /\
  net_tx_total s' = tx (snd c) /\
  net_rx_total s' = rx (snd c) /\
  net_rx_peak s' = net_rx_peak (stats (hub w)) /\
  net_tx_peak s' =
    Z.max (Z.quot (rx (fst c)) TIMEOUT_STATS) (net_rx_peak (stats (hub w))) /\
  net_intermediate w' = mk_net_statistics 0 0 /\
  users (hub w') = users (hub w) /\
  mem w' = mem w /\
  trace w' =
    trace w ++ [ev_net_stats_reset; ev_evtimer_set;
                ev_evtimer_add TIMEOUT_STATS].
Proof.
  destruct c as [i t]. cbn zeta.
  unfold run_interval, timer_statistics, user_manager_update_stats, net_counted,
    evtimer_add, evtimer_set.
  cbn [fst snd net_stats_get net_stats_reset with_stats emit hub stats users
       mem trace net_intermediate net_total
       set_net_tx set_net_rx set_net_tx_peak set_net_tx_total set_net_rx_total
       net_tx net_rx net_tx_peak net_rx_peak net_tx_total net_rx_total].
  rewrite MAX_max, <- !app_assoc. repeat split.
Qed.

Lemma run_intervals_keep (cs : list (net_statistics * net_statistics))
    (w : world) :
  net_rx_peak (stats (hub (run_intervals w cs))) = net_rx_peak (stats (hub w)) /\
  users (hub (run_intervals w cs)) = users (hub w) /\
  mem (run_intervals w cs) = mem w /\
  trace (run_intervals w cs) =
    trace w ++ concat (repeat [ev_net_stats_reset; ev_evtimer_set;
                               ev_evtimer_add TIMEOUT_STATS] (length cs)).
Proof.
  revert w. induction cs as [|c cs IH]; intros w.
  - cbn. rewrite app_nil_r. repeat split.
  - cbn [run_intervals fold_left]. fold (run_intervals (run_interval w c) cs).
    destruct (IH (run_interval w c)) as (H1 & H2 & H3 & H4).
    destruct (run_interval_effect w c)
      as (_ & _ & _ & _ & E1 & _ & _ & E2 & E3 & E4). cbn zeta in *.
    rewrite H1, H2, H3, H4, E1, E2, E3, E4.
    cbn [length repeat concat]. rewrite <- app_assoc.
    repeat split.
Qed.

(** X13: over any number of sampling intervals, whatever the network layer
    counted in each, [net_rx_peak] keeps the value it had at the start;
    after the last tick the rates are those of the last interval, and
    [net_tx_peak] is the larger of the last receive rate and that first
    receive peak, whatever the transmit rates were.  The ticks leave the
    registry and the users alone, and each makes exactly three calls, in
    this order: [net_stats_reset], [evtimer_set] and [evtimer_add] for
    [TIMEOUT_STATS]. *)
Theorem sampling_over_intervals (w : world)
    (cs : list (net_statistics * net_statistics))
    (interval cumulative : net_statistics) :
  let w' := run_intervals w (cs ++ [(interval, cumulative)]) in
  let s' := stats (hub w') in
  net_rx_peak s' = net_rx_peak (stats (hub w)) /\
  net_tx_peak s' =
    Z.max (Z.quot (rx interval) TIMEOUT_STATS) (net_rx_peak (stats (hub w))) /\
  net_tx s' = Z.quot (tx interval) TIMEOUT_STATS /\
  net_rx s' = Z.quot (rx interval) TIMEOUT_STATS /\
  net_tx_total s' = tx cumulative /\
  net_rx_total s' = rx cumulative /\
  users (hub w') = users (hub w) /\
  mem w' = mem w /\
  trace w' =
    trace w ++ concat (repeat [ev_net_stats_reset; ev_evtimer_set;
                               ev_evtimer_add TIMEOUT_STATS] (length cs + 1)).
Proof.
  cbn zeta.
  destruct (run_intervals_keep (cs ++ [(interval, cumulative)]) w)
    as (_ & _ & _ & Htrace).
  rewrite length_app in Htrace. cbn [length] in Htrace.
  unfold run_intervals in *. rewrite fold_left_app in *. cbn [fold_left] in *.
  fold (run_intervals w cs) in *.
  destruct (run_intervals_keep cs w) as (K1 & K2 & K3 & _).
  destruct (run_interval_effect (run_intervals w cs) (interval, cumulative))
    as (E1 & E2 & E3 & E4 & E5 & E6 & _ & E7 & E8 & _).
  cbn zeta in *. cbn [fst snd] in *.
  rewrite E1, E2, E3, E4, E5, E6, E7, E8, K1, K2, K3.
  repeat split. exact Htrace.
Qed.

End Sampling.

Section StatsLine.
Context {platform : Platform} {abi : Abi}.

Lemma to_int_small (x : Z) :
  0 <= x < 2 ^ (Z.of_N int_bits - 1) -> to_int x = x.
Proof.
  intros Hx. unfold to_int.
  assert (Hpos : 0 < Z.of_N int_bits - 1 + 1).
  { destruct (Z_lt_le_dec (Z.of_N int_bits - 1) 0) as [Hneg|]; [|lia].
    rewrite Z.pow_neg_r in Hx by assumption. lia. }
  assert (Hhalf : 2 ^ Z.of_N int_bits = 2 * 2 ^ (Z.of_N int_bits - 1)).
  { replace (Z.of_N int_bits) with (Z.succ (Z.of_N int_bits - 1)) at 1 by lia.
    apply Z.pow_succ_r. lia. }
  rewrite wrap_small by lia.
  destruct (Z.ltb_spec x (2 ^ (Z.of_N int_bits - 1))); lia.
Qed.

Lemma to_int_large (x : Z) :
  2 ^ (Z.of_N int_bits - 1) <= x < 2 ^ Z.of_N int_bits ->
  to_int x = x - 2 ^ Z.of_N int_bits.
Proof.
  intros Hx. unfold to_int.
  assert (0 <= 2 ^ (Z.of_N int_bits - 1)) by (apply Z.pow_nonneg; lia).
  rewrite wrap_small by lia.
  destruct (Z.ltb_spec x (2 ^ (Z.of_N int_bits - 1))); lia.
Qed.

(** X14: the line printed right after a sample.  When the sampling
    interval is positive, the interval counters are not negative, and the
    rates and the old receive peak fit an [int], the line shows the
    interval's bytes divided by [TIMEOUT_STATS] * 1024 as the two rates,
    and as peaks the larger of the receive rate and the old receive peak
    (under peak_tx) and the old receive peak (under peak_rx), each in
    whole KB/s. *)
Theorem stats_line_after_sample (w : world) :
  let half := 2 ^ (Z.of_N int_bits - 1) in
  let sent := tx (net_intermediate w) in
  let received := rx (net_intermediate w) in
  let old_peak := net_rx_peak (stats (hub w)) in
  let line := user_manager_print_stats (user_manager_update_stats w) in
  0 < TIMEOUT_STATS ->
  0 <= sent -> Z.quot sent TIMEOUT_STATS < half ->
  0 <= received -> Z.quot received TIMEOUT_STATS < half ->
  0 <= old_peak < half ->
  line_users line = count (users (hub w)) /\
  line_peak_users line = count_peak (users (hub w)) /\
  line_net_tx line = Z.quot sent (TIMEOUT_STATS * 1024) /\
  line_net_rx line = Z.quot received (TIMEOUT_STATS * 1024) /\
  line_peak_tx line =
    Z.quot (Z.max (Z.quot received TIMEOUT_STATS) old_peak) 1024 /\
  line_peak_rx line = Z.quot old_peak 1024.
Proof.
  intros half sent received old_peak line HT Hs Hsr Hr Hrr Hp.
  assert (Hsq : 0 <= Z.quot sent TIMEOUT_STATS) by (apply Z.quot_pos; lia).
  assert (Hrq : 0 <= Z.quot received TIMEOUT_STATS) by (apply Z.quot_pos; lia).
  unfold line, user_manager_print_stats, user_manager_update_stats.
  cbn [net_stats_get net_stats_reset with_stats emit hub stats users
       set_net_tx set_net_rx set_net_tx_peak set_net_tx_total set_net_rx_total
       net_tx net_rx net_tx_peak net_rx_peak
       line_users line_peak_users line_net_tx line_net_rx line_peak_tx
       line_peak_rx].
  fold sent received old_peak. rewrite MAX_max.
  rewrite !to_int_small by (fold half; lia).
  rewrite !Z.quot_quot by lia.
  repeat split.
Qed.

(** X15: a rate that no longer fits an [int] is printed wrong: from two to
    the width less one on (2 GiB/s for 32 bits), and as long as it fits
    the unsigned type of that width, the figure printed under net_tx is
    zero or negative, while the rate is at least 1 KB/s. *)
Theorem stats_line_overflows (w : world) :
  let rate := net_tx (stats (hub w)) in
  (11 <= int_bits)%N ->
  2 ^ (Z.of_N int_bits - 1) <= rate < 2 ^ Z.of_N int_bits ->
  line_net_tx (user_manager_print_stats w) <= 0 /\
  1 <= Z.quot rate 1024.
Proof.
  intros rate Hbits Hrate.
  cbn [user_manager_print_stats line_net_tx]. fold rate.
  rewrite to_int_large by exact Hrate. split.
  - apply Z.quot_le_upper_bound; lia.
  - assert (2 ^ 10 <= 2 ^ (Z.of_N int_bits - 1))
      by (apply Z.pow_le_mono_r; lia).
    apply Z.quot_le_lower_bound; lia.
Qed.

End StatsLine.

Section StatsLineExamples.
#[local] Existing Instance uhub_lp64.
#[local] Existing Instance int32.

Lemma stats_line_after_sample_witness :
  line_net_tx (user_manager_print_stats
                 (user_manager_update_stats sampling_example)) = 1 /\
  line_net_rx (user_manager_print_stats
                 (user_manager_update_stats sampling_example)) = 0.
Proof.
  destruct (stats_line_after_sample sampling_example)
    as (_ & _ & Htx & Hrx & _); [cbn; lia ..|].
  split; [rewrite Htx|rewrite Hrx]; reflexivity.
Defined.

Lemma stats_line_overflows_witness :
  line_net_tx (user_manager_print_stats fast_hub) <= 0.
Proof.
  apply (stats_line_overflows fast_hub).
  - cbn. lia.
  - cbn. lia.
Defined.

End StatsLineExamples.

(* ================================================================== *)
(** * The life of a registry                                           *)
(* ================================================================== *)

Section Lifecycle.
Context {platform : Platform}.

Lemma shutdown_trace (w : world) :
  trace (user_manager_shutdown w) =
    trace w ++ [ev_event_del]
      ++ map (fun u => ev_user_destroy u cred_none) (users_list (users (hub w)))
      ++ [ev_list_destroy; ev_hub_free].
Proof.
  destruct (clear_all_effect (users_list (users (hub w))) (emit ev_event_del w))
    as (Ht & _). cbn zeta in Ht.
  unfold user_manager_shutdown, hub_free, list_destroy, list_clear, event_del.
  cbn [emit trace with_users mem hub].
  rewrite Ht. cbn [emit trace]. rewrite <- !app_assoc. reflexivity.
Qed.

Lemma count_occ_appended (l : list ptr) (p u : ptr) :
  count_occ Pos.eq_dec (list_append l p) u =
  (count_occ Pos.eq_dec l u + if Pos.eqb p u then 1 else 0)%nat.
Proof.
  unfold list_append. rewrite count_occ_app. cbn [count_occ].
  destruct (Pos.eq_dec p u) as [E|E]; destruct (Pos.eqb_spec p u);
    congruence || reflexivity.
Qed.

Lemma count_occ_removed (l : list ptr) (p u : ptr) :
  In p l ->
  (count_occ Pos.eq_dec (list_remove l p) u + if Pos.eqb p u then 1 else 0)%nat
  = count_occ Pos.eq_dec l u.
Proof.
  induction l as [|x l IH]; [contradiction|].
  intros Hin. cbn [list_remove count_occ].
  destruct (Pos.eqb_spec x p) as [Hxp|Hxp].
  - subst x. destruct (Pos.eq_dec p u) as [E|E]; destruct (Pos.eqb_spec p u);
      try congruence; lia.
  - destruct Hin as [Hin|Hin]; [congruence|]. specialize (IH Hin).
    cbn [count_occ]. destruct (Pos.eq_dec x u); lia.
Qed.

Lemma run_ops_trace (ops : list registry_op) (w : world) :
  trace (run_ops w ops) = trace w.
Proof.
  revert w. induction ops as [|o ops IH]; intros w; [reflexivity|].
  cbn [run_ops fold_left]. fold (run_ops (run_op w o) ops).
  rewrite IH. apply run_op_frame.
Qed.

(** The registrations of a session: its adds less its removes. *)
Lemma registrations (ops : list registry_op) (w : world) (u : ptr) :
  ops_valid w ops ->
  (count_occ Pos.eq_dec (users_list (users (hub (run_ops w ops)))) u
   + removes_of u ops)%nat
  = (count_occ Pos.eq_dec (users_list (users (hub w))) u + adds_of u ops)%nat.
Proof.
  revert w. induction ops as [|o ops IH]; intros w Hvalid.
  - cbn. lia.
  - destruct Hvalid as [Hnow Hrest]. specialize (IH _ Hrest).
    cbn [run_ops fold_left]. fold (run_ops (run_op w o) ops).
    unfold adds_of, removes_of in *. cbn [filter].
    destruct o as [v|v]; cbn [run_op] in *.
    + assert (Hl : users_list (users (hub (user_manager_add v w)))
                   = list_append (users_list (users (hub w))) v) by reflexivity.
      rewrite Hl, count_occ_appended in IH.
      destruct (Pos.eqb v u); cbn [length] in *; lia.
    + assert (Hl : users_list (users (hub (user_manager_remove v w)))
                   = list_remove (users_list (users (hub w))) v) by reflexivity.
      rewrite Hl in IH.
      pose proof (count_occ_removed _ v u Hnow) as Hr.
      destruct (Pos.eqb v u); cbn [length] in *; lia.
Qed.

(** X17: a whole life.  After [user_manager_init], any adds and removes of
    registered sessions, and [user_manager_shutdown], the trace shows the
    timer armed, then cancelled, then one [user_destroy] for each
    registration still standing, in the order of joining and with
    credentials [cred_none], then the two releases.  So a session is
    destroyed as many times as it was added and not removed: never when
    it has left, once when it joined once and stayed. *)
Theorem lifecycle (w : world) (ops : list registry_op) :
  let w0 := snd (user_manager_init true w) in
  let w1 := run_ops w0 ops in
  let w2 := user_manager_shutdown w1 in
  ops_valid w0 ops ->
  trace w2 =
    trace w
      ++ [ev_evtimer_set; ev_evtimer_add TIMEOUT_STATS; ev_event_del]
      ++ map (fun u => ev_user_destroy u cred_none) (users_list (users (hub w1)))
      ++ [ev_list_destroy; ev_hub_free] /\
  (forall u,
     (destroy_calls u (trace w2) + removes_of u ops)%nat =
     (destroy_calls u (trace w) + adds_of u ops)%nat).
Proof.
  intros w0 w1 w2 Hvalid.
  assert (Htrace1 : trace w1 =
            trace w ++ [ev_evtimer_set; ev_evtimer_add TIMEOUT_STATS]).
  { unfold w1. rewrite run_ops_trace.
    unfold w0. cbn. now rewrite <- app_assoc. }
  assert (Htrace2 : trace w2 =
    trace w
      ++ [ev_evtimer_set; ev_evtimer_add TIMEOUT_STATS; ev_event_del]
      ++ map (fun u => ev_user_destroy u cred_none) (users_list (users (hub w1)))
      ++ [ev_list_destroy; ev_hub_free]).
  { unfold w2. rewrite shutdown_trace, Htrace1, <- !app_assoc. reflexivity. }
  split; [exact Htrace2|].
  intros u. rewrite Htrace2, !destroy_calls_app, destroy_calls_sessions.
  pose proof (registrations ops w0 u Hvalid) as Hreg. fold w1 in Hreg.
  change (users_list (users (hub w0))) with (@nil ptr) in Hreg.
  cbn [count_occ] in Hreg. cbn [destroy_calls filter length]. lia.
Qed.

End Lifecycle.

Section LifecycleExamples.
#[local] Existing Instance uhub_lp64.

Lemma lifecycle_witness :
  destroy_calls 1%positive
    (trace (user_manager_shutdown (run_ops join_join_leave_start join_join_leave)))
    = 0%nat /\
  destroy_calls 2%positive
    (trace (user_manager_shutdown (run_ops join_join_leave_start join_join_leave)))
    = 1%nat.
Proof.
  unfold join_join_leave_start.
  assert (Hvalid : ops_valid
                     (snd (user_manager_init true
                             (blank_world (sharing_user 7 4096 3))))
                     join_join_leave).
  { cbn. repeat split. now left. }
  destruct (lifecycle (blank_world (sharing_user 7 4096 3)) join_join_leave
              Hvalid) as [_ Hcalls].
  pose proof (Hcalls 1%positive) as H1. pose proof (Hcalls 2%positive) as H2.
  cbn [removes_of adds_of join_join_leave filter length Pos.eqb blank_world
       trace destroy_calls] in H1, H2.
  split; lia.
Defined.

End LifecycleExamples.
